(** * 3d-model-viewer: the camera auto-fit routine and the viewer's UI logic

    A shallow embedding of [src/components/ModelViewer.tsx].

    Conventions of the embedding.
    - A JavaScript number is a real number ([R]); the non-finite values of
      IEEE arithmetic (a division by a zero sine) are outside the model.
    - The parts of three.js the component calls ([Vector3], [Box3],
      [Object3D.traverse], [PerspectiveCamera.updateProjectionMatrix],
      [Object3D.add]/[remove]) are written out after the library's source.
      A node of the object graph carries a translation only: rotation and
      scale are the identity, as for the groups the loaders return.
    - A React effect is a function on the state it reads and writes; the
      outcome of an asynchronous request is an argument of the function. *)

From Stdlib Require Import Reals Lra List Bool Ascii String Arith NArith Lia.
Import ListNotations.

Local Open Scope R_scope.

(** ** three.js: Vector3 *)

Record Vector3 : Type := mkVector3 { vx : R; vy : R; vz : R }.

Definition vzero : Vector3 := mkVector3 0 0 0.

(** [Vector3.addVectors] *)
Definition addVectors (a b : Vector3) : Vector3 :=
  mkVector3 (vx a + vx b) (vy a + vy b) (vz a + vz b).

(** [Vector3.subVectors] *)
Definition subVectors (a b : Vector3) : Vector3 :=
  mkVector3 (vx a - vx b) (vy a - vy b) (vz a - vz b).

(** [Vector3.multiplyScalar] *)
Definition multiplyScalar (a : Vector3) (s : R) : Vector3 :=
  mkVector3 (vx a * s) (vy a * s) (vz a * s).

(** [Vector3.min] and [Vector3.max], componentwise. *)
Definition vmin (a b : Vector3) : Vector3 :=
  mkVector3 (Rmin (vx a) (vx b)) (Rmin (vy a) (vy b)) (Rmin (vz a) (vz b)).

Definition vmax (a b : Vector3) : Vector3 :=
  mkVector3 (Rmax (vx a) (vx b)) (Rmax (vy a) (vy b)) (Rmax (vz a) (vz b)).

(** ** three.js: Box3

    A fresh [Box3] has [min = +Infinity] and [max = -Infinity] on every
    axis; that state is [EmptyBox]. *)

Inductive Box3 : Type :=
| EmptyBox
| MkBox (bmin bmax : Vector3).

Definition Rltb (a b : R) : bool := if Rlt_dec a b then true else false.

(** [Box3.isEmpty]: [max < min] on some axis. *)
Definition isEmpty (b : Box3) : bool :=
  match b with
  | EmptyBox => true
  | MkBox lo hi =>
      Rltb (vx hi) (vx lo) || Rltb (vy hi) (vy lo) || Rltb (vz hi) (vz lo)
  end.

(** [Box3.expandByPoint] *)
Definition expandByPoint (b : Box3) (p : Vector3) : Box3 :=
  match b with
  | EmptyBox => MkBox p p
  | MkBox lo hi => MkBox (vmin lo p) (vmax hi p)
  end.

(** [Box3.setFromBufferAttribute], on the vertices of a geometry. *)
Definition setFromPoints (ps : list Vector3) : Box3 :=
  fold_left expandByPoint ps EmptyBox.

(** [Box3.union] *)
Definition union (a b : Box3) : Box3 :=
  match a, b with
  | EmptyBox, _ => b
  | _, EmptyBox => a
  | MkBox lo hi, MkBox lo' hi' => MkBox (vmin lo lo') (vmax hi hi')
  end.

(** [Box3.applyMatrix4] for the matrix of a translation by [d]:
    an empty box is returned as it is. *)
Definition translateBox (d : Vector3) (b : Box3) : Box3 :=
  if isEmpty b then b
  else match b with
       | EmptyBox => EmptyBox
       | MkBox lo hi => MkBox (addVectors lo d) (addVectors hi d)
       end.

(** [Box3.getSize] *)
Definition getSize (b : Box3) : Vector3 :=
  if isEmpty b then vzero
  else match b with
       | EmptyBox => vzero
       | MkBox lo hi => subVectors hi lo
       end.

(** [Box3.getCenter] *)
Definition getCenter (b : Box3) : Vector3 :=
  if isEmpty b then vzero
  else match b with
       | EmptyBox => vzero
       | MkBox lo hi => multiplyScalar (addVectors lo hi) (1 / 2)
       end.

(** ** three.js: the object graph *)

Inductive ObjectKind : Type := KGroup | KMesh | KBone | KOther.

(** [THREE.MeshStandardMaterial] parameters; [color] is the hex value. *)
Record StandardMaterial : Type := mkStandardMaterial
  { color : N; roughness : R; metalness : R }.

Inductive Material : Type :=
| NoMaterial
| LoaderMaterial (name : string)
| MeshStandardMaterial (m : StandardMaterial).

#[warnings="-register-all"]
Inductive Object3D : Type :=
  mkObject3D (kind : ObjectKind)
             (position : Vector3)
             (geometry : option (list Vector3))
             (material : Material)
             (skeleton : bool)
             (children : list Object3D).

Definition kind (o : Object3D) : ObjectKind :=
  let '(mkObject3D k _ _ _ _ _) := o in k.
Definition position (o : Object3D) : Vector3 :=
  let '(mkObject3D _ p _ _ _ _) := o in p.
Definition geometry (o : Object3D) : option (list Vector3) :=
  let '(mkObject3D _ _ g _ _ _) := o in g.
Definition material (o : Object3D) : Material :=
  let '(mkObject3D _ _ _ m _ _) := o in m.
Definition skeleton (o : Object3D) : bool :=
  let '(mkObject3D _ _ _ _ s _) := o in s.
Definition children (o : Object3D) : list Object3D :=
  let '(mkObject3D _ _ _ _ _ cs) := o in cs.

(** [obj.position.x = ..; obj.position.y = ..; obj.position.z = ..] *)
Definition setPosition (o : Object3D) (p : Vector3) : Object3D :=
  let '(mkObject3D k _ g m s cs) := o in mkObject3D k p g m s cs.

(** [child instanceof THREE.Mesh] *)
Definition isMesh (o : Object3D) : bool :=
  match kind o with KMesh => true | _ => false end.

(** [Box3.expandByObject]: the node's world matrix is its parent's world
    translation followed by its own position; the box of its geometry is
    moved there and joined, then the children are visited. *)
Fixpoint expandByObject (parentWorld : Vector3) (b : Box3) (o : Object3D)
  {struct o} : Box3 :=
  let '(mkObject3D _ p g _ _ cs) := o in
  let world := addVectors parentWorld p in
  let b1 := match g with
            | None => b
            | Some ps => union b (translateBox world (setFromPoints ps))
            end in
  fold_left (expandByObject world) cs b1.

(** [new THREE.Box3().setFromObject(obj)] for a root without a parent. *)
Definition setFromObject (o : Object3D) : Box3 :=
  expandByObject vzero EmptyBox o.

(** ** three.js: cameras *)

(** A [Matrix4] is its sixteen elements in column-major order. *)
Definition Matrix4 : Type := list R.

(** [Matrix4.makePerspective] *)
Definition makePerspective (left right top bottom near far : R) : Matrix4 :=
  let x := 2 * near / (right - left) in
  let y := 2 * near / (top - bottom) in
  let a := (right + left) / (right - left) in
  let b := (top + bottom) / (top - bottom) in
  let c := - (far + near) / (far - near) in
  let d := (- 2 * far * near) / (far - near) in
  [ x; 0; 0; 0;
    0; y; 0; 0;
    a; b; c; -1;
    0; 0; d; 0 ].

Record PerspectiveCamera : Type := mkPerspectiveCamera
  { cam_position : Vector3;
    fov : R;
    aspect : R;
    near : R;
    far : R;
    zoom : R;
    projectionMatrix : Matrix4 }.

Record OrthographicCamera : Type := mkOrthographicCamera
  { ocam_position : Vector3;
    ocam_left : R; ocam_right : R; ocam_top : R; ocam_bottom : R;
    ocam_near : R; ocam_far : R; ocam_zoom : R;
    ocam_projectionMatrix : Matrix4 }.

(** The camera of [useThree()]; [camera instanceof PerspectiveCamera]
    is a match on the constructor. *)
Inductive Camera : Type :=
| Perspective (c : PerspectiveCamera)
| Orthographic (c : OrthographicCamera).

Definition DEG2RAD : R := PI / 180.

(** [PerspectiveCamera.updateProjectionMatrix], with no view offset and
    no film offset (the defaults, which the viewer never changes). *)
Definition updateProjectionMatrix (c : PerspectiveCamera) : PerspectiveCamera :=
  let near := near c in
  let top := near * tan (DEG2RAD * (1 / 2) * fov c) / zoom c in
  let height := 2 * top in
  let width := aspect c * height in
  let left := - (1 / 2) * width in
  mkPerspectiveCamera (cam_position c) (fov c) (aspect c) (near) (far c)
    (zoom c)
    (makePerspective left (left + width) top (top - height) near (far c)).

Definition setX (v : Vector3) (a : R) : Vector3 := mkVector3 a (vy v) (vz v).
Definition setY (v : Vector3) (a : R) : Vector3 := mkVector3 (vx v) a (vz v).
Definition setZ (v : Vector3) (a : R) : Vector3 := mkVector3 (vx v) (vy v) a.

Definition set_cam_position (c : PerspectiveCamera) (p : Vector3) :=
  mkPerspectiveCamera p (fov c) (aspect c) (near c) (far c) (zoom c)
    (projectionMatrix c).
Definition set_near (c : PerspectiveCamera) (n : R) :=
  mkPerspectiveCamera (cam_position c) (fov c) (aspect c) n (far c) (zoom c)
    (projectionMatrix c).
Definition set_far (c : PerspectiveCamera) (f : R) :=
  mkPerspectiveCamera (cam_position c) (fov c) (aspect c) (near c) f (zoom c)
    (projectionMatrix c).

(** [Math.max(a, b, c)] *)
Definition Math_max3 (a b c : R) : R := Rmax (Rmax a b) c.

(** ** The auto-fit routine, once per component *)

(** [OBJModel], the body of the [objLoader.load] callback after the
    materials are settled (lines 69-96). *)
Definition OBJModel_fit (obj : Object3D) (camera : Camera)
  : Object3D * Camera :=
  let box := setFromObject obj in
  let size := getSize box in
  let center := getCenter box in
  let obj := setPosition obj (setX (position obj) (- vx center)) in
  let obj := setPosition obj (setY (position obj) (- vy center)) in
  let obj := setPosition obj (setZ (position obj) (- vz center)) in
  let maxDim := Math_max3 (vx size) (vy size) (vz size) in
  match camera with
  | Perspective camera =>
      let fov := fov camera * (PI / 180) in
      let cameraZ := Rabs (maxDim / sin (fov / 2)) in
      let cameraZ := cameraZ * 1.5 in
      let camera :=
        set_cam_position camera (setZ (cam_position camera) cameraZ) in
      let minZ := 0.1 in
      let maxZ := cameraZ * 10 in
      let camera := set_near camera minZ in
      let camera := set_far camera maxZ in
      (obj, Perspective (updateProjectionMatrix camera))
  | _ => (obj, camera)
  end.


(** [GLTFModel], the effect (lines 237-266); [model] is an object, so
    the guard [if (model)] holds. *)
Definition GLTFModel_fit (model : Object3D) (camera : Camera)
  : Object3D * Camera :=
  let box := setFromObject model in
  let size := getSize box in
  let center := getCenter box in
  let model := setPosition model (setX (position model) (- vx center)) in
  let model := setPosition model (setY (position model) (- vy center)) in
  let model := setPosition model (setZ (position model) (- vz center)) in
  let maxDim := Math_max3 (vx size) (vy size) (vz size) in
  match camera with
  | Perspective camera =>
      let fov := fov camera * (PI / 180) in
      let cameraZ := Rabs (maxDim / sin (fov / 2)) in
      let cameraZ := cameraZ * 1.5 in
      let camera :=
        set_cam_position camera (setZ (cam_position camera) cameraZ) in
      let minZ := 0.1 in
      let maxZ := cameraZ * 10 in
      let camera := set_near camera minZ in
      let camera := set_far camera maxZ in
      (model, Perspective (updateProjectionMatrix camera))
  | _ => (model, camera)
  end.

(** ** JavaScript strings

    A string is a sequence of characters; [toLowerCase] acts on the ASCII
    capitals.  No letter of the four extensions is the lower case of a
    character outside ASCII, so the comparisons below take the branch the
    Unicode-aware method takes. *)

Local Open Scope string_scope.

(** [String.prototype.toLowerCase], one character. *)
Definition lowerChar (c : ascii) : ascii :=
  let n := nat_of_ascii c in
  if (65 <=? n)%nat && (n <=? 90)%nat then ascii_of_nat (n + 32) else c.

Fixpoint toLowerCase (s : string) : string :=
  match s with
  | EmptyString => EmptyString
  | String c s' => String (lowerChar c) (toLowerCase s')
  end.

(** [s.split(sep)] for a one-character separator: never an empty array. *)
Fixpoint split (sep : ascii) (s : string) : list string :=
  match s with
  | EmptyString => [EmptyString]
  | String c s' =>
      if Ascii.eqb c sep then EmptyString :: split sep s'
      else match split sep s' with
           | [] => [String c EmptyString]
           | seg :: rest => String c seg :: rest
           end
  end.

(** [Array.prototype.pop]: the last element, [undefined] on [[]]. *)
Fixpoint pop (l : list string) : option string :=
  match l with
  | [] => None
  | [a] => Some a
  | _ :: l' => pop l'
  end.

(** [s.startsWith(p)] *)
Definition startsWith (s p : string) : bool := String.prefix p s.

(** [s.replace(/\.obj$/i, '.mtl')]: the pattern matches at the one place
    where the rest of the string is [.obj] up to case. *)
Fixpoint replace_obj_mtl (s : string) : string :=
  if toLowerCase s =? ".obj" then ".mtl"
  else match s with
       | EmptyString => EmptyString
       | String c s' => String c (replace_obj_mtl s')
       end.

(** A string in a condition: the empty string is falsy. *)
Definition truthy (s : option string) : option string :=
  match s with
  | Some EmptyString => None
  | _ => s
  end.

(** ** getModelType *)

Inductive ModelType : Type := gltf | glb | obj | fbx.

(** What a call of [getModelType] does: return or throw an [Error]. *)
Inductive Completion : Type :=
| Return (t : ModelType)
| Throw (message : string).

(** [`${extension}`] *)
Definition template (extension : option string) : string :=
  match extension with
  | Some e => e
  | None => "undefined"
  end.

(** The [switch (extension)] of [getModelType]. *)
Definition switchExtension (extension : option string) : Completion :=
  match extension with
  | Some "obj" => Return obj
  | Some "fbx" => Return fbx
  | Some "gltf" => Return gltf
  | Some "glb" => Return glb
  | _ => Throw ("Unsupported file type: " ++ template extension)
  end.

Definition getModelType (filename : string) : Completion :=
  let extension := option_map toLowerCase (pop (split "." filename)) in
  switchExtension extension.

(** The extension a model type names. *)
Definition extensionOf (t : ModelType) : string :=
  match t with
  | gltf => "gltf"
  | glb => "glb"
  | obj => "obj"
  | fbx => "fbx"
  end.

(** The final dot-separated segment of a file name, said without
    [split]: a dot-free string that is the whole name, or what follows
    its last dot. *)
Fixpoint dotFree (s : string) : Prop :=
  match s with
  | EmptyString => True
  | String c s' => c <> "."%char /\ dotFree s'
  end.

Definition finalSegment (filename seg : string) : Prop :=
  dotFree seg /\
  (filename = seg \/ exists before, filename = before ++ "." ++ seg).

(** Comparison up to case. *)
Definition equalsIgnoreCase (a b : string) : Prop :=
  toLowerCase a = toLowerCase b.

(** ** ModelViewer: state, handlers and render *)

Record ViewerState : Type := mkViewerState
  { st_url : option string;
    st_type : option ModelType;
    st_mtlUrl : option string;
    st_showBones : bool;
    st_environmentPreset : string }.

Definition setUrl (u : option string) (s : ViewerState) : ViewerState :=
  mkViewerState u (st_type s) (st_mtlUrl s) (st_showBones s)
    (st_environmentPreset s).
Definition setType (t : option ModelType) (s : ViewerState) : ViewerState :=
  mkViewerState (st_url s) t (st_mtlUrl s) (st_showBones s)
    (st_environmentPreset s).
Definition setMtlUrl (m : option string) (s : ViewerState) : ViewerState :=
  mkViewerState (st_url s) (st_type s) m (st_showBones s)
    (st_environmentPreset s).
Definition setShowBones (b : bool) (s : ViewerState) : ViewerState :=
  mkViewerState (st_url s) (st_type s) (st_mtlUrl s) b
    (st_environmentPreset s).
Definition setEnvironmentPreset (p : string) (s : ViewerState) : ViewerState :=
  mkViewerState (st_url s) (st_type s) (st_mtlUrl s) (st_showBones s) p.

(** The [useState] initialisers of [ModelViewer]; [None] when
    [getModelType(modelUrl)] throws during the first render. *)
Definition ModelViewer_init (modelUrl : option string) : option ViewerState :=
  match truthy modelUrl with
  | Some u =>
      match getModelType u with
      | Return t => Some (mkViewerState (Some u) (Some t) None false "city")
      | Throw _ => None
      end
  | None => Some (mkViewerState None None None false "city")
  end.

(** A [File] of the browser together with the string
    [URL.createObjectURL] returns for it. *)
Record File : Type := mkFile { file_name : string; file_objectUrl : string }.

(** [s.endsWith(suffix)] *)
Fixpoint endsWith (s suffix : string) : bool :=
  if s =? suffix then true
  else match s with
       | EmptyString => false
       | String _ s' => endsWith s' suffix
       end.

(** The [.mtl] companion of an [.obj] file among [files] (lines 355-363
    and 387-395). *)
Definition findMtl (files : list File) (objName : string) : option string :=
  let mtlFileName := replace_obj_mtl objName in
  option_map file_objectUrl
    (find (fun f => toLowerCase (file_name f) =? toLowerCase mtlFileName)
          files).

(** [handleFileChange]: an unsupported name is caught and alerted, and
    the state is left as it was. *)
Definition handleFileChange (files : list File) (s : ViewerState)
  : ViewerState :=
  match files with
  | [] => s
  | file :: _ =>
      match getModelType (file_name file) with
      | Throw _ => s
      | Return fileType =>
          let s := setUrl (Some (file_objectUrl file)) s in
          let s := setType (Some fileType) s in
          match fileType with
          | obj => setMtlUrl (findMtl files (file_name file)) s
          | _ => s
          end
      end
  end.

(** [handleDrop] *)
Definition handleDrop (files : list File) (s : ViewerState) : ViewerState :=
  match find (fun f => endsWith (toLowerCase (file_name f)) ".obj") files with
  | Some objFile =>
      let s := setUrl (Some (file_objectUrl objFile)) s in
      let s := setType (Some obj) s in
      setMtlUrl (findMtl files (file_name objFile)) s
  | None =>
      match files with
      | [] => s
      | file :: _ =>
          match getModelType (file_name file) with
          | Throw _ => s
          | Return fileType =>
              let s := setUrl (Some (file_objectUrl file)) s in
              let s := setType (Some fileType) s in
              setMtlUrl None s
          end
      end
  end.

Definition environmentPresets : list string :=
  [ "sunset"; "dawn"; "night"; "warehouse"; "forest";
    "apartment"; "studio"; "city"; "park"; "lobby" ].

(** The elements a render produces; lights and orbit controls, which no
    state reaches, are left out. *)
#[warnings="-register-all"]
Inductive Element : Type :=
| OBJModelEl (url : string) (mtlUrl : option string)
| FBXModelEl (url : string) (showBones : bool)
| GLTFModelEl (url : string) (environmentPreset : string)
| StageEl (environment : string) (children : list Element)
| CanvasEl (children : list Element)
| BonesCheckboxEl (checked : bool)
| PresetSelectEl (value : string) (options : list string)
| PromptEl.



Definition orDefault {A : Type} (d : A) (v : option A) : A :=
  match v with
  | Some a => a
  | None => d
  end.

(** [ModelLoader]; a prop that is not passed is [None], and the
    components' parameter defaults fill it in. *)
Definition ModelLoader (url : string) (type : ModelType)
  (mtlUrl : option string) (showBones : option bool)
  (environmentPreset : option string) : list Element :=
  match type with
  | obj => [OBJModelEl url mtlUrl]
  | fbx => [FBXModelEl url (orDefault false showBones)]
  | gltf | glb => [GLTFModelEl url (orDefault "city" environmentPreset)]
  end.

Definition isGltfOrGlb (t : ModelType) : bool :=
  match t with
  | gltf | glb => true
  | _ => false
  end.

(** The JSX of [ModelViewer] (lines 424-558). *)
Definition ModelViewer_render (s : ViewerState) : list Element :=
  match truthy (st_url s), st_type s with
  | Some url, Some type =>
      [ CanvasEl
          (if isGltfOrGlb type
           then ModelLoader url type (st_mtlUrl s) (Some (st_showBones s))
                  (Some (st_environmentPreset s))
           else [ StageEl "city"
                    (ModelLoader url type (st_mtlUrl s)
                       (Some (st_showBones s)) None) ]) ]
      ++ (match type with
          | fbx => [BonesCheckboxEl (st_showBones s)]
          | _ => []
          end)
      ++ (if isGltfOrGlb type
          then [PresetSelectEl (st_environmentPreset s) environmentPresets]
          else [])
  | _, _ => [PromptEl]
  end.



(** The preset selector widgets of a view, with their current value. *)
Definition presetSelects (v : list Element) : list string :=
  flat_map (fun e => match e with
                     | PresetSelectEl value _ => [value]
                     | _ => []
                     end) v.

Definition bonesCheckboxes (v : list Element) : list bool :=
  flat_map (fun e => match e with
                     | BonesCheckboxEl checked => [checked]
                     | _ => []
                     end) v.

(** The props of the [FBXModel] instances in a rendered tree. *)
Fixpoint fbxModelsOf (e : Element) : list (string * bool) :=
  match e with
  | FBXModelEl url showBones => [(url, showBones)]
  | StageEl _ cs => flat_map fbxModelsOf cs
  | CanvasEl cs => flat_map fbxModelsOf cs
  | _ => []
  end.

Definition fbxModel (v : list Element) : option (string * bool) :=
  hd_error (flat_map fbxModelsOf v).

(** ** Traversal of the object graph *)

(** [Object3D.traverse]: the nodes in the order the callback sees them. *)
Fixpoint traverse (o : Object3D) : list Object3D :=
  o :: flat_map traverse (children o).

(** [obj.traverse(child => { if (child instanceof THREE.Mesh)
    child.material = m })]: the assignment made at every node. *)
Fixpoint traverseSetMeshMaterial (m : Material) (o : Object3D) : Object3D :=
  let '(mkObject3D k p g mat s cs) := o in
  mkObject3D k p g
    (match k with KMesh => m | _ => mat end) s
    (map (traverseSetMeshMaterial m) cs).

(** ** FBXModel: the skeleton overlay *)

(** An object of the scene, named by the order of its allocation. *)
Inductive SceneChild : Type :=
| SkeletonHelperObj (id : nat) (visible : bool)
| LightObj (id : nat).

Definition child_id (c : SceneChild) : nat :=
  match c with
  | SkeletonHelperObj id _ => id
  | LightObj id => id
  end.

Definition isSkeletonHelper (c : SceneChild) : bool :=
  match c with
  | SkeletonHelperObj _ _ => true
  | LightObj _ => false
  end.

(** [scene.add(object)] for an object that has no parent yet. *)
Definition scene_add (scene : list SceneChild) (c : SceneChild)
  : list SceneChild :=
  scene ++ [c].

(** [scene.remove(object)]: the child at [indexOf(object)], if any, is
    spliced out. *)
Fixpoint scene_remove (scene : list SceneChild) (c : SceneChild)
  : list SceneChild :=
  match scene with
  | [] => []
  | x :: rest =>
      if (child_id x =? child_id c)%nat then rest
      else x :: scene_remove rest c
  end.

(** The scene, the [skeletonRef] of the mounted [FBXModel], and the
    number of objects allocated so far. *)
Record Three : Type := mkThree
  { scene : list SceneChild;
    skeletonRef : option SceneChild;
    allocated : nat }.

(** The test of the second effect: some mesh carries a skeleton. *)
Definition hasBones (fbx : Object3D) : bool :=
  existsb (fun object => isMesh object && skeleton object) (traverse fbx).

(** The second effect of [FBXModel] (lines 190-217); [fbx] and [scene]
    are objects, so the guard [if (fbx && scene)] holds. *)
Definition skeletonEffect (fbx : Object3D) (showBones : bool) (t : Three)
  : Three :=
  let t := match skeletonRef t with
           | Some h => mkThree (scene_remove (scene t) h) None (allocated t)
           | None => t
           end in
  if showBones then
    if hasBones fbx then
      let newSkeleton := SkeletonHelperObj (allocated t) true in
      mkThree (scene_add (scene t) newSkeleton) (Some newSkeleton)
        (S (allocated t))
    else t
  else t.

(** Its cleanup (lines 219-225). *)
Definition skeletonCleanup (t : Three) : Three :=
  match skeletonRef t with
  | Some h => mkThree (scene_remove (scene t) h) None (allocated t)
  | None => t
  end.

(** The viewer with its canvas: the React state, the props of the
    mounted [FBXModel] (its effect's dependencies), and the scene. *)
Record App : Type := mkApp
  { viewer : ViewerState;
    mountedFBX : option (string * bool);
    three : Three }.

Inductive Event : Type :=
| FileChange (files : list File)
| Drop (files : list File)
| BonesChange (checked : bool)
| PresetChange (value : string).

Definition sameDeps (a b : string * bool) : bool :=
  (fst a =? fst b) && Bool.eqb (snd a) (snd b).

Section Lifecycle.

(** [useFBX]: the object the loader cache holds for a URL. *)
Variable useFBX : string -> Object3D.

(** A commit of React after the state became [s]: [FBXModel] is
    mounted, updated or unmounted as the new tree says, and its second
    effect runs when a dependency ([fbx], [showBones]) changed. *)
Definition commit (s : ViewerState) (a : App) : App :=
  match mountedFBX a, fbxModel (ModelViewer_render s) with
  | None, None => mkApp s None (three a)
  | None, Some (url, showBones) =>
      let t := mkThree (scene (three a)) None (allocated (three a)) in
      mkApp s (Some (url, showBones))
        (skeletonEffect (useFBX url) showBones t)
  | Some old, Some (url, showBones) =>
      if sameDeps old (url, showBones)
      then mkApp s (Some (url, showBones)) (three a)
      else mkApp s (Some (url, showBones))
             (skeletonEffect (useFBX url) showBones
                (skeletonCleanup (three a)))
  | Some _, None => mkApp s None (skeletonCleanup (three a))
  end.

(** The canvas as React first commits it: three lights in the scene. *)
Definition mountApp (s : ViewerState) : App :=
  commit s (mkApp s None (mkThree [LightObj 0; LightObj 1; LightObj 2] None 3)).

(** An event reaches its handler only while its widget is rendered. *)
Definition dispatch (a : App) (e : Event) : App :=
  let s := viewer a in
  match e with
  | FileChange files => commit (handleFileChange files s) a
  | Drop files => commit (handleDrop files s) a
  | BonesChange checked =>
      match bonesCheckboxes (ModelViewer_render s) with
      | [] => a
      | _ => commit (setShowBones checked s) a
      end
  | PresetChange value =>
      match presetSelects (ModelViewer_render s) with
      | [] => a
      | _ => commit (setEnvironmentPreset value s) a
      end
  end.

Definition run (a : App) (events : list Event) : App :=
  fold_left dispatch events a.

End Lifecycle.

Definition helperPresent (a : App) : bool :=
  existsb isSkeletonHelper (scene (three a)).

(** ** OBJModel: loading with or without materials *)

(** [THREE.MTLLoader.MaterialCreator], by the names it defines. *)
Definition MaterialCreator : Type := list string.

Inductive HeadOutcome : Type := HeadOk | HeadNotOk | HeadFailed.

(** What the network answers: [fetch(.., HEAD)], [mtlLoader.load]
    ([None]: the error callback) and [objLoader.load] with the loader's
    [materials] ([None]: the error callback). *)
Record Network : Type := mkNetwork
  { fetchHead : string -> HeadOutcome;
    mtlLoad : string -> option MaterialCreator;
    objLoad : string -> option MaterialCreator -> option Object3D }.

Inductive LoadOutcome : Type :=
| Loaded (loaderMaterials : option MaterialCreator)
         (model : Object3D) (camera : Camera)
| ObjError (loaderMaterials : option MaterialCreator).

Definition defaultMaterial : Material :=
  MeshStandardMaterial (mkStandardMaterial 0xcccccc%N (1 / 2) (1 / 2)).

(** [loadObj] (lines 52-107); [materials] is [objLoader.materials]. *)
Definition loadObj (net : Network) (url : string)
  (materials : option MaterialCreator) (camera : Camera) : LoadOutcome :=
  match objLoad net url materials with
  | Some object =>
      let object := match materials with
                    | None => traverseSetMeshMaterial defaultMaterial object
                    | Some _ => object
                    end in
      let '(object, camera) := OBJModel_fit object camera in
      Loaded materials object camera
  | None => ObjError materials
  end.

(** [loadWithMaterial] (lines 33-49) *)
Definition loadWithMaterial (net : Network) (url materialUrl : string)
  (camera : Camera) : LoadOutcome :=
  match mtlLoad net materialUrl with
  | Some materials => loadObj net url (Some materials) camera
  | None => loadObj net url None camera
  end.

(** The effect of [OBJModel] (lines 28-137). *)
Definition OBJModel_load (net : Network) (url : string)
  (mtlUrl : option string) (camera : Camera) : LoadOutcome :=
  match truthy mtlUrl with
  | Some m => loadWithMaterial net url m camera
  | None =>
      let autoMtlUrl := replace_obj_mtl url in
      if startsWith url "http" || startsWith url "/" then
        match fetchHead net autoMtlUrl with
        | HeadOk => loadWithMaterial net url autoMtlUrl camera
        | HeadNotOk => loadObj net url None camera
        | HeadFailed => loadObj net url None camera
        end
      else loadObj net url None camera
  end.


(** ** Quantities the statements speak about *)

(** [maxDim]: the largest of the bounding box's width, height, depth. *)
Definition maxDimOf (o : Object3D) : R :=
  let size := getSize (setFromObject o) in
  Math_max3 (vx size) (vy size) (vz size).

(** The vertical field of view in radians. *)
Definition fovRadians (c : PerspectiveCamera) : R := fov c * (PI / 180).

(** The camera a fit leaves, when it is a perspective camera. *)
Definition fittedCamera (r : Object3D * Camera) : option PerspectiveCamera :=
  match snd r with
  | Perspective c => Some c
  | Orthographic _ => None
  end.

(** The centre of the object's bounding box in world space. *)
Definition worldCenter (o : Object3D) : Vector3 := getCenter (setFromObject o).

(** ** Sample inputs *)

(** A mesh whose vertices span the cube from [(0,0,0)] to [(1,1,1)],
    placed at [p]. *)
Definition cubeAt (p : Vector3) : Object3D :=
  mkObject3D KMesh p (Some [mkVector3 0 0 0; mkVector3 1 1 1])
    NoMaterial false [].

(** The camera of [<Canvas camera={{ position: [0, 0, 10], fov: 45,
    near: 0.1, far: 1000 }}>], before its first projection update. *)
Definition canvasCamera : PerspectiveCamera :=
  mkPerspectiveCamera (mkVector3 0 0 10) 45 1 0.1 1000 1 [].


Definition orbitedCamera : PerspectiveCamera :=
  mkPerspectiveCamera (mkVector3 3 4 10) 45 1 0.1 1000 1 [].


(** The sample cube as a mesh that already has a material. *)
Definition paintedCube : Object3D :=
  mkObject3D KMesh vzero (Some [mkVector3 0 0 0; mkVector3 1 1 1])
    (LoaderMaterial "paint") false [].

(** [Vector3.negate] *)
Definition negate (v : Vector3) : Vector3 :=
  mkVector3 (- vx v) (- vy v) (- vz v).

(** A box as the library builds them: the fresh empty box, or bounds
    with [min <= max] on every axis. *)
Definition proper (b : Box3) : Prop :=
  b = EmptyBox \/ isEmpty b = false.



(** Two meshes under a group, as an [.obj] file without materials
    parses. *)
Definition twoMeshes : Object3D :=
  mkObject3D KGroup vzero None NoMaterial false
    [cubeAt vzero; cubeAt (mkVector3 2 0 0)].

(** A network on which no material file can be had. *)
Definition noMtlNetwork : Network :=
  mkNetwork (fun _ => HeadNotOk) (fun _ => None) (fun _ _ => Some twoMeshes).

(** The loaded model is an FBX with bones and the toggle is on. *)
Definition bonesShown (useFBX : string -> Object3D) (s : ViewerState) : Prop :=
  exists url,
    truthy (st_url s) = Some url /\
    st_type s = Some fbx /\
    st_showBones s = true /\
    hasBones (useFBX url) = true.

Definition lights : list SceneChild := [LightObj 0; LightObj 1; LightObj 2].

(** The scene for given props of the mounted [FBXModel]: the three
    lights and, when the model has bones to show, the one helper that
    [skeletonRef] points to. *)
Definition sceneFor (useFBX : string -> Object3D)
  (props : option (string * bool)) (t : Three) : Prop :=
  (3 <= allocated t)%nat /\
  match props with
  | Some (url, true) =>
      if hasBones (useFBX url) then
        exists id,
          (3 <= id < allocated t)%nat /\
          skeletonRef t = Some (SkeletonHelperObj id true) /\
          scene t = (lights ++ [SkeletonHelperObj id true])%list
      else skeletonRef t = None /\ scene t = lights
  | _ => skeletonRef t = None /\ scene t = lights
  end.

(** What holds of the viewer between two events: the mounted [FBXModel]
    is the one the state renders, and the scene is the one for it. *)
Definition consistent (useFBX : string -> Object3D) (a : App) : Prop :=
  mountedFBX a = fbxModel (ModelViewer_render (viewer a)) /\
  sceneFor useFBX (mountedFBX a) (three a).

(** A skinned mesh under a group, as an [.fbx] file with a rig loads. *)
Definition riggedModel : Object3D :=
  mkObject3D KGroup vzero None NoMaterial false
    [ mkObject3D KBone vzero None NoMaterial false [];
      mkObject3D KMesh vzero (Some [mkVector3 0 0 0; mkVector3 1 2 1])
        (LoaderMaterial "skin") true [] ].

(** A session: an [.fbx] file is dropped on the empty viewer and the
    bones checkbox is ticked. *)
Definition riggedSession : list Event :=
  [Drop [mkFile "hero.FBX" "blob:1"]; BonesChange true].

Definition emptyViewer : ViewerState :=
  mkViewerState None None None false "city".

(** ** The full-screen variant of the viewer: CanvasResizer *)

Definition set_aspect (c : PerspectiveCamera) (a : R) :=
  mkPerspectiveCamera (cam_position c) (fov c) a (near c) (far c) (zoom c)
    (projectionMatrix c).

(** [handleResize] of [CanvasResizer], on the camera; [gl.setSize] acts
    on the renderer only. *)
Definition handleResize (innerWidth innerHeight : R) (camera : Camera)
  : Camera :=
  match camera with
  | Perspective camera =>
      let camera := set_aspect camera (innerWidth / innerHeight) in
      Perspective (updateProjectionMatrix camera)
  | _ => camera
  end.

(** A group without any geometry below it. *)
Definition emptyGroup : Object3D :=
  mkObject3D KGroup (mkVector3 1 2 3) None NoMaterial false
    [mkObject3D KBone vzero None NoMaterial false []].

(** ** The full-screen variant of the viewer: state and file handlers *)

Record FullscreenState : Type := mkFullscreenState
  { fs_url : option string;
    fs_type : option ModelType;
    fs_showBones : bool;
    fs_environmentPreset : string;
    fs_fileName : string;
    fs_fileSize : N;
    fs_polygonCount : N }.

Record SizedFile : Type := mkSizedFile
  { sf_name : string; sf_size : N; sf_objectUrl : string }.

(** How a handler ends: it returns, it shows the alert, or an error
    thrown by [getModelType] leaves it.  The state updates queued before
    the error stay queued. *)
Inductive HandlerEnd : Type :=
| Returned
| Alerted
| Thrown (message : string).

Definition fs_setFile (name : string) (size : N) (s : FullscreenState) :=
  mkFullscreenState (fs_url s) (fs_type s) (fs_showBones s)
    (fs_environmentPreset s) name size (fs_polygonCount s).

Definition fs_setModel (url : string) (t : ModelType) (s : FullscreenState) :=
  mkFullscreenState (Some url) (Some t) (fs_showBones s)
    (fs_environmentPreset s) (fs_fileName s) (fs_fileSize s)
    (fs_polygonCount s).

(** [handleFileChange] and [handleDrop] of the variant have one body:
    the first file's name and size are stored, then its type is asked
    for; [if (fileType)] tests the type's string. *)
Definition Fullscreen_handleFile (files : list SizedFile)
  (s : FullscreenState) : FullscreenState * HandlerEnd :=
  match files with
  | [] => (s, Returned)
  | file :: _ =>
      let s := fs_setFile (sf_name file) (sf_size file) s in
      match getModelType (sf_name file) with
      | Throw message => (s, Thrown message)
      | Return fileType =>
          match truthy (Some (extensionOf fileType)) with
          | Some _ => (fs_setModel (sf_objectUrl file) fileType s, Returned)
          | None => (s, Alerted)
          end
      end
  end.

(** ** More quantities the statements speak about *)

(** A model is on show: the canvas is rendered, not the prompt. *)
Definition shown (s : ViewerState) : Prop :=
  exists url t, truthy (st_url s) = Some url /\ st_type s = Some t.

(** [url] and [type] are both [null] or both set. *)
Definition paired (s : ViewerState) : Prop :=
  (st_url s = None /\ st_type s = None) \/
  (exists url t, st_url s = Some url /\ st_type s = Some t).

(** [URL.createObjectURL] gave every file of the event a non-empty
    string. *)
Definition urlsNonEmpty (e : Event) : Prop :=
  match e with
  | FileChange files | Drop files =>
      Forall (fun f => file_objectUrl f <> "") files
  | _ => True
  end.

(** A model is loaded and its type is [fbx]. *)
Definition fbxLoaded (s : ViewerState) : Prop :=
  (exists url, truthy (st_url s) = Some url) /\ st_type s = Some fbx.

(** The skeleton helpers among the children of the scene. *)
Definition helpersOf (scene : list SceneChild) : list SceneChild :=
  filter isSkeletonHelper scene.

Definition othersOf (scene : list SceneChild) : list SceneChild :=
  filter (fun c => negb (isSkeletonHelper c)) scene.

(** * Properties *)

(** ** Box3 and the object graph *)

Lemma Rltb_false (a b : R) : Rltb a b = false <-> b <= a.
Proof.
  unfold Rltb. destruct (Rlt_dec a b); split; intros; try lra; congruence.
Qed.

Lemma Rltb_true (a b : R) : Rltb a b = true <-> a < b.
Proof.
  unfold Rltb. destruct (Rlt_dec a b); split; intros; try lra; congruence.
Qed.

Lemma isEmpty_false (lo hi : Vector3) :
  isEmpty (MkBox lo hi) = false <->
  vx lo <= vx hi /\ vy lo <= vy hi /\ vz lo <= vz hi.
Proof.
  simpl. rewrite !orb_false_iff, !Rltb_false. tauto.
Qed.

(** Every component of [getSize] is non-negative, whatever the box. *)
Lemma getSize_nonneg (b : Box3) :
  0 <= vx (getSize b) /\ 0 <= vy (getSize b) /\ 0 <= vz (getSize b).
Proof.
  unfold getSize. destruct (isEmpty b) eqn:E.
  - simpl. lra.
  - destruct b as [|lo hi]; [discriminate|].
    apply isEmpty_false in E. simpl. lra.
Qed.

Lemma maxDimOf_nonneg (o : Object3D) : 0 <= maxDimOf o.
Proof.
  unfold maxDimOf, Math_max3.
  destruct (getSize_nonneg (setFromObject o)) as (Hx & _ & _).
  eapply Rle_trans; [exact Hx|].
  eapply Rle_trans; [apply Rmax_l|apply Rmax_l].
Qed.

(** ** The three copies of the routine *)


Lemma GLTFModel_fit_eq (o : Object3D) (c : Camera) :
  GLTFModel_fit o c = OBJModel_fit o c.
Proof. reflexivity. Qed.

(** The routine on a perspective camera, field by field. *)
Lemma OBJModel_fit_perspective (o : Object3D) (c : PerspectiveCamera) :
  let d := Rabs (maxDimOf o / sin (fovRadians c / 2)) * 1.5 in
  let c1 := mkPerspectiveCamera (setZ (cam_position c) d) (fov c) (aspect c)
              0.1 (d * 10) (zoom c) (projectionMatrix c) in
  OBJModel_fit o (Perspective c) =
    (setPosition o (mkVector3 (- vx (worldCenter o)) (- vy (worldCenter o))
                      (- vz (worldCenter o))),
     Perspective (updateProjectionMatrix c1)).
Proof.
  destruct o as [k p g m s cs]. reflexivity.
Qed.

(** Opens a goal about the camera a fit leaves. *)
Ltac fit_fields :=
  rewrite OBJModel_fit_perspective; cbv zeta;
  eexists; split; [reflexivity|].

Lemma sin_half_fov_pos (c : PerspectiveCamera) :
  0 < fov c < 360 -> 0 < sin (fovRadians c / 2).
Proof.
  intros [H0 H1]. pose proof PI_RGT_0 as HPI. unfold fovRadians.
  apply sin_gt_0; nra.
Qed.

(** The bounding box of the sample cube. *)
Lemma setFromObject_cubeAt (p : Vector3) :
  setFromObject (cubeAt p) =
    MkBox (mkVector3 (vx p) (vy p) (vz p))
          (mkVector3 (vx p + 1) (vy p + 1) (vz p + 1)).
Proof.
  unfold setFromObject, cubeAt. simpl.
  unfold translateBox, isEmpty. simpl.
  rewrite Rmin_left, Rmax_right by lra.
  replace (Rltb 1 0) with false by (symmetry; apply Rltb_false; lra).
  simpl. unfold addVectors. simpl.
  rewrite !Rmin_left, !Rmax_right by lra.
  f_equal; f_equal; lra.
Qed.

Lemma isEmpty_cubeAt (p : Vector3) : isEmpty (setFromObject (cubeAt p)) = false.
Proof.
  rewrite setFromObject_cubeAt. apply isEmpty_false. simpl. lra.
Qed.


Lemma worldCenter_cubeAt (p : Vector3) :
  worldCenter (cubeAt p) =
    mkVector3 (vx p + 1 / 2) (vy p + 1 / 2) (vz p + 1 / 2).
Proof.
  unfold worldCenter, getCenter. rewrite isEmpty_cubeAt, setFromObject_cubeAt.
  unfold multiplyScalar, addVectors. simpl. f_equal; lra.
Qed.

(** ** The distance of the fit *)




(** ** One routine on three paths *)

Lemma position_setPosition (o : Object3D) (p : Vector3) :
  position (setPosition o p) = p.
Proof. destruct o; reflexivity. Qed.




(** ** Where the fit leaves the camera *)

(** C4, as the code has it: the fit writes [position.z] only.  On a
    perspective camera the position after the fit is [(x, y, d)], with
    [x] and [y] the coordinates before the fit and [d] the computed
    distance; it is [(0, 0, d)] when the camera stood on the z-axis. *)
Theorem fit_camera_position (o : Object3D) (c : PerspectiveCamera) :
  exists c',
    fittedCamera (OBJModel_fit o (Perspective c)) = Some c' /\
    cam_position c' =
      mkVector3 (vx (cam_position c)) (vy (cam_position c))
        (Rabs (maxDimOf o / sin (fovRadians c / 2)) * 1.5) /\
    (vx (cam_position c) = 0 -> vy (cam_position c) = 0 ->
     cam_position c' =
       mkVector3 0 0 (Rabs (maxDimOf o / sin (fovRadians c / 2)) * 1.5)).
Proof.
  fit_fields. split; [reflexivity|].
  intros Hx Hy. simpl. unfold setZ. now rewrite Hx, Hy.
Qed.

(** The canvas camera starts at [(0, 0, 10)]. *)
Lemma fit_camera_position_witness :
  exists c',
    fittedCamera (OBJModel_fit (cubeAt vzero) (Perspective canvasCamera))
      = Some c' /\
    cam_position c' =
      mkVector3 0 0
        (Rabs (maxDimOf (cubeAt vzero) / sin (fovRadians canvasCamera / 2))
         * 1.5).
Proof.
  destruct (fit_camera_position (cubeAt vzero) canvasCamera)
    as (c' & E & _ & F).
  exists c'. split; [exact E|].
  apply F; reflexivity.
Defined.

(** C4, as it is written, fails after the user has orbited the camera to
    [(3, 4, 10)]: the fit leaves it at [(3, 4, d)]. *)
Lemma fit_camera_position_counterexample :
  ~ (exists c' d,
       fittedCamera (OBJModel_fit (cubeAt vzero) (Perspective orbitedCamera))
         = Some c' /\
       cam_position c' = mkVector3 0 0 d).
Proof.
  intros (c' & d & E & F).
  rewrite OBJModel_fit_perspective in E. cbv zeta in E.
  unfold fittedCamera in E. simpl in E. injection E as <-.
  simpl in F. unfold setZ in F. simpl in F.
  injection F as Hx _ _. lra.
Qed.

(** C5: on a perspective camera the fit sets the near plane to 0.1 and
    the far plane to ten times the computed distance, and the projection
    matrix it leaves is the one these fields determine. *)
Theorem fit_near_far (o : Object3D) (c : PerspectiveCamera) :
  exists c',
    fittedCamera (OBJModel_fit o (Perspective c)) = Some c' /\
    near c' = 0.1 /\
    far c' = Rabs (maxDimOf o / sin (fovRadians c / 2)) * 1.5 * 10 /\
    far c' = vz (cam_position c') * 10 /\
    updateProjectionMatrix c' = c'.
Proof.
  fit_fields. repeat split; reflexivity.
Qed.

(** C10: on a perspective camera the fit leaves [position.x],
    [position.y], [fov] and [aspect] (and [zoom]) as they were. *)
Theorem fit_frame (o : Object3D) (c : PerspectiveCamera) :
  exists c',
    fittedCamera (OBJModel_fit o (Perspective c)) = Some c' /\
    vx (cam_position c') = vx (cam_position c) /\
    vy (cam_position c') = vy (cam_position c) /\
    fov c' = fov c /\
    aspect c' = aspect c /\
    zoom c' = zoom c.
Proof.
  fit_fields. repeat split; reflexivity.
Qed.

(** ** Centring the object *)

Lemma Vector3_eq (a b : Vector3) :
  vx a = vx b -> vy a = vy b -> vz a = vz b -> a = b.
Proof. destruct a, b; simpl; intros; subst; reflexivity. Qed.

(** Induction on the object graph, with the children as a [Forall]. *)
Lemma Object3D_nested_ind (P : Object3D -> Prop) :
  (forall k p g m s cs, Forall P cs -> P (mkObject3D k p g m s cs)) ->
  forall o, P o.
Proof.
  intros H. fix IH 1. intros [k p g m s cs]. apply H.
  induction cs as [|c cs IHcs]; constructor; [apply IH|exact IHcs].
Qed.

Lemma proper_expandByPoint (b : Box3) (p : Vector3) :
  proper b -> isEmpty (expandByPoint b p) = false.
Proof.
  intros [->|E]; simpl.
  - rewrite !orb_false_iff, !Rltb_false. lra.
  - destruct b as [|lo hi]; [discriminate|].
    apply isEmpty_false in E. apply isEmpty_false. simpl.
    pose proof (Rmin_l (vx lo) (vx p)). pose proof (Rmax_l (vx hi) (vx p)).
    pose proof (Rmin_l (vy lo) (vy p)). pose proof (Rmax_l (vy hi) (vy p)).
    pose proof (Rmin_l (vz lo) (vz p)). pose proof (Rmax_l (vz hi) (vz p)).
    lra.
Qed.

Lemma proper_fold_expandByPoint (ps : list Vector3) (b : Box3) :
  proper b -> proper (fold_left expandByPoint ps b).
Proof.
  revert b. induction ps as [|p ps IH]; intros b Hb; simpl; [exact Hb|].
  apply IH. right. now apply proper_expandByPoint.
Qed.

Lemma proper_setFromPoints (ps : list Vector3) : proper (setFromPoints ps).
Proof. apply proper_fold_expandByPoint. now left. Qed.

Lemma proper_union (a b : Box3) : proper a -> proper b -> proper (union a b).
Proof.
  intros [->|Ea] [->|Eb]; simpl.
  - now left.
  - now right.
  - destruct a; [now left|now right].
  - destruct a as [|lo hi], b as [|lo' hi']; try discriminate.
    right. apply isEmpty_false in Ea, Eb. apply isEmpty_false. simpl.
    pose proof (Rmin_l (vx lo) (vx lo')). pose proof (Rmax_l (vx hi) (vx hi')).
    pose proof (Rmin_l (vy lo) (vy lo')). pose proof (Rmax_l (vy hi) (vy hi')).
    pose proof (Rmin_l (vz lo) (vz lo')). pose proof (Rmax_l (vz hi) (vz hi')).
    lra.
Qed.

Lemma translateBox_MkBox (d lo hi : Vector3) :
  isEmpty (MkBox lo hi) = false ->
  translateBox d (MkBox lo hi) = MkBox (addVectors lo d) (addVectors hi d).
Proof. intros E. unfold translateBox. now rewrite E. Qed.

Lemma isEmpty_translateBox (d : Vector3) (b : Box3) :
  isEmpty (translateBox d b) = isEmpty b.
Proof.
  unfold translateBox. destruct (isEmpty b) eqn:E; [exact E|].
  destruct b as [|lo hi]; [discriminate|].
  apply isEmpty_false in E. apply isEmpty_false. simpl. lra.
Qed.

Lemma proper_translateBox (d : Vector3) (b : Box3) :
  proper b -> proper (translateBox d b).
Proof.
  intros [->|E]; [now left|]. right. now rewrite isEmpty_translateBox.
Qed.

Lemma Rmin_plus (a b d : R) : Rmin (a + d) (b + d) = Rmin a b + d.
Proof. unfold Rmin. destruct (Rle_dec a b), (Rle_dec (a + d) (b + d)); lra. Qed.

Lemma Rmax_plus (a b d : R) : Rmax (a + d) (b + d) = Rmax a b + d.
Proof. unfold Rmax. destruct (Rle_dec a b), (Rle_dec (a + d) (b + d)); lra. Qed.

Lemma translateBox_union (d : Vector3) (a b : Box3) :
  proper a -> proper b ->
  translateBox d (union a b) = union (translateBox d a) (translateBox d b).
Proof.
  intros [->|Ea] [->|Eb].
  - reflexivity.
  - simpl. destruct (translateBox d b); reflexivity.
  - destruct a as [|lo hi]; [reflexivity|]. simpl.
    destruct (translateBox d (MkBox lo hi)) eqn:T; [|reflexivity].
    unfold translateBox in T. destruct (isEmpty (MkBox lo hi)); discriminate.
  - destruct a as [|lo hi], b as [|lo' hi']; try discriminate.
    assert (Eu : isEmpty (union (MkBox lo hi) (MkBox lo' hi')) = false).
    { destruct (proper_union (MkBox lo hi) (MkBox lo' hi')) as [?|?];
        [now right|now right|discriminate|assumption]. }
    simpl union in *.
    rewrite !translateBox_MkBox by assumption. simpl.
    f_equal; apply Vector3_eq; simpl;
      rewrite ?Rmin_plus, ?Rmax_plus; reflexivity.
Qed.

Lemma translateBox_compose (d e f : Vector3) (b : Box3) :
  f = addVectors d e ->
  translateBox e (translateBox d b) = translateBox f b.
Proof.
  intros ->. destruct (isEmpty b) eqn:E.
  - unfold translateBox at 2 3. rewrite E. unfold translateBox. now rewrite E.
  - destruct b as [|lo hi]; [discriminate|].
    rewrite (translateBox_MkBox d), translateBox_MkBox; try assumption.
    + rewrite translateBox_MkBox by assumption.
      f_equal; apply Vector3_eq; simpl; lra.
    + rewrite <- (translateBox_MkBox d) by assumption.
      now rewrite isEmpty_translateBox.
Qed.

(** Moving the frame of an object graph by [d] moves its box by [d]. *)
Lemma expandByObject_translate (o : Object3D) :
  forall w w' d b,
    w' = addVectors w d -> proper b ->
    expandByObject w' (translateBox d b) o
      = translateBox d (expandByObject w b o)
    /\ proper (expandByObject w b o).
Proof.
  induction o as [k p g m s cs IH] using Object3D_nested_ind.
  intros w w' d b -> Hb. simpl.
  set (world := addVectors w p).
  set (world' := addVectors (addVectors w d) p).
  assert (Hw : world' = addVectors world d)
    by (apply Vector3_eq; simpl; lra).
  set (b1 := match g with
             | Some ps => union b (translateBox world (setFromPoints ps))
             | None => b
             end).
  assert (Hb1 : proper b1).
  { unfold b1. destruct g; [|exact Hb].
    apply proper_union; [exact Hb|].
    apply proper_translateBox, proper_setFromPoints. }
  assert (E1 : match g with
               | Some ps => union (translateBox d b)
                              (translateBox world' (setFromPoints ps))
               | None => translateBox d b
               end = translateBox d b1).
  { unfold b1. destruct g as [ps|]; [|reflexivity].
    rewrite translateBox_union;
      [|exact Hb|apply proper_translateBox, proper_setFromPoints].
    f_equal. symmetry. now apply translateBox_compose. }
  rewrite E1. clearbody b1 world world'. clear E1 Hb b.
  revert b1 Hb1. induction IH as [|c cs Hc _ IHcs]; intros b1 Hb1; simpl.
  - split; [reflexivity|exact Hb1].
  - destruct (Hc world world' d b1 Hw Hb1) as [-> Hp].
    now apply IHcs.
Qed.

Lemma proper_setFromObject (o : Object3D) : proper (setFromObject o).
Proof.
  unfold setFromObject.
  eapply (proj2 (expandByObject_translate o vzero _ vzero EmptyBox eq_refl _)).
  Unshelve. now left.
Qed.

(** The box depends on a root's position through its world position
    only. *)
Lemma expandByObject_setPosition (o : Object3D) (w w' q : Vector3) (b : Box3) :
  addVectors w' (position o) = addVectors w q ->
  expandByObject w b (setPosition o q) = expandByObject w' b o.
Proof.
  destruct o as [k p g m s cs]. simpl. intros ->. reflexivity.
Qed.

(** Setting the root's position to [q] moves the box by [q - position]. *)
Lemma setFromObject_setPosition (o : Object3D) (q : Vector3) :
  setFromObject (setPosition o q)
    = translateBox (subVectors q (position o)) (setFromObject o).
Proof.
  unfold setFromObject.
  rewrite (expandByObject_setPosition o vzero
             (addVectors vzero (subVectors q (position o))))
    by (apply Vector3_eq; simpl; lra).
  apply (expandByObject_translate o vzero _ (subVectors q (position o))
           EmptyBox eq_refl).
  now left.
Qed.

Lemma getCenter_translateBox (d : Vector3) (b : Box3) :
  isEmpty b = false ->
  getCenter (translateBox d b) = addVectors (getCenter b) d.
Proof.
  intros E. unfold getCenter. rewrite isEmpty_translateBox, E.
  destruct b as [|lo hi]; [discriminate|].
  rewrite translateBox_MkBox by assumption.
  apply Vector3_eq; simpl; lra.
Qed.

(** The object a fit leaves does not depend on the camera. *)
Lemma OBJModel_fit_object (o : Object3D) (c : Camera) :
  fst (OBJModel_fit o c) = setPosition o (negate (worldCenter o)).
Proof.
  destruct o as [k p g m s cs], c; reflexivity.
Qed.

(** The centre of the bounding box after a fit is the opposite of the
    root's position before it. *)
Lemma worldCenter_after_fit (o : Object3D) (c : Camera) :
  isEmpty (setFromObject o) = false ->
  worldCenter (fst (OBJModel_fit o c)) = negate (position o).
Proof.
  intros E. rewrite OBJModel_fit_object. unfold worldCenter.
  rewrite setFromObject_setPosition, getCenter_translateBox by assumption.
  apply Vector3_eq; simpl; lra.
Qed.

(** For a root that sits at the origin of its parent, as the groups the
    loaders return do, the fit centres the bounding box at the world
    origin. *)
Lemma fit_centers_unmoved_root (o : Object3D) (c : Camera) :
  position o = vzero ->
  worldCenter (fst (OBJModel_fit o c)) = vzero.
Proof.
  intros Hp. destruct (isEmpty (setFromObject o)) eqn:E.
  - rewrite OBJModel_fit_object. unfold worldCenter at 1.
    rewrite setFromObject_setPosition. unfold getCenter.
    now rewrite isEmpty_translateBox, E.
  - rewrite worldCenter_after_fit, Hp by assumption.
    apply Vector3_eq; simpl; lra.
Qed.

(** ** getModelType *)

Ltac next_char e :=
  destruct e as [|[[] [] [] [] [] [] [] []] e]; try reflexivity.

(** The [switch] compares the extension with the four names in turn. *)
Lemma switchExtension_eqb (e : string) :
  switchExtension (Some e) =
    if e =? "obj" then Return obj
    else if e =? "fbx" then Return fbx
    else if e =? "gltf" then Return gltf
    else if e =? "glb" then Return glb
    else Throw ("Unsupported file type: " ++ e).
Proof.
  do 5 next_char e.
Qed.

Lemma switchExtension_Return (e : string) (t : ModelType) :
  switchExtension (Some e) = Return t <-> e = extensionOf t.
Proof.
  rewrite switchExtension_eqb.
  destruct (String.eqb_spec e "obj") as [->|N1];
    [destruct t; simpl; split; congruence|].
  destruct (String.eqb_spec e "fbx") as [->|N2];
    [destruct t; simpl; split; congruence|].
  destruct (String.eqb_spec e "gltf") as [->|N3];
    [destruct t; simpl; split; congruence|].
  destruct (String.eqb_spec e "glb") as [->|N4];
    [destruct t; simpl; split; congruence|].
  split; [discriminate|]. destruct t; simpl; congruence.
Qed.

Lemma switchExtension_Throw (e : string) :
  (forall t, e <> extensionOf t) ->
  switchExtension (Some e) = Throw ("Unsupported file type: " ++ e).
Proof.
  intros N. rewrite switchExtension_eqb.
  destruct (String.eqb_spec e "obj") as [E|_]; [now apply (N obj) in E|].
  destruct (String.eqb_spec e "fbx") as [E|_]; [now apply (N fbx) in E|].
  destruct (String.eqb_spec e "gltf") as [E|_]; [now apply (N gltf) in E|].
  destruct (String.eqb_spec e "glb") as [E|_]; [now apply (N glb) in E|].
  reflexivity.
Qed.

Lemma split_dotFree (seg : string) : dotFree seg -> split "." seg = [seg].
Proof.
  induction seg as [|c seg IH]; simpl; [reflexivity|].
  intros [Hc Hseg]. rewrite (IH Hseg).
  destruct (Ascii.eqb_spec c "."); [contradiction|reflexivity].
Qed.

Lemma split_after_dot (before seg : string) :
  dotFree seg ->
  exists l, l <> [] /\ split "." (before ++ String "." seg) = (l ++ [seg])%list.
Proof.
  intros Hseg. induction before as [|c before (l & Hl & IH)]; simpl.
  - exists [EmptyString]. split; [discriminate|].
    now rewrite split_dotFree.
  - rewrite IH. destruct (Ascii.eqb c ".").
    + exists (EmptyString :: l). split; [discriminate|reflexivity].
    + destruct l as [|s0 l0]; [contradiction|]. simpl.
      exists (String c s0 :: l0). split; [discriminate|reflexivity].
Qed.

Lemma pop_snoc (l : list string) (a : string) :
  pop (l ++ [a])%list = Some a.
Proof.
  induction l as [|x l IH]; simpl; [reflexivity|].
  rewrite IH. destruct (l ++ [a])%list eqn:E; [|reflexivity].
  now destruct l.
Qed.

(** [split('.').pop()] is the final dot-separated segment. *)
Lemma pop_split_finalSegment (filename seg : string) :
  finalSegment filename seg -> pop (split "." filename) = Some seg.
Proof.
  intros [Hseg [->|[before ->]]].
  - now rewrite split_dotFree.
  - destruct (split_after_dot before seg Hseg) as (l & _ & E).
    simpl append. rewrite E. apply pop_snoc.
Qed.

(** Every file name has a final segment, and only one. *)
Lemma finalSegment_exists (filename : string) :
  exists seg, finalSegment filename seg.
Proof.
  induction filename as [|c f (seg & Hseg & H)].
  - exists EmptyString. split; [exact I|now left].
  - destruct (Ascii.eqb_spec c ".") as [->|N].
    + destruct H as [->|[before ->]].
      * exists seg. split; [exact Hseg|]. right. now exists EmptyString.
      * exists seg. split; [exact Hseg|]. right.
        now exists (String "." before).
    + destruct H as [->|[before ->]].
      * exists (String c seg). split; [now split|now left].
      * exists seg. split; [exact Hseg|]. right.
        now exists (String c before).
Qed.

Lemma finalSegment_unique (filename seg seg' : string) :
  finalSegment filename seg -> finalSegment filename seg' -> seg = seg'.
Proof.
  intros H H'. apply pop_split_finalSegment in H, H'. congruence.
Qed.

Lemma toLowerCase_extensionOf (t : ModelType) :
  toLowerCase (extensionOf t) = extensionOf t.
Proof. destruct t; reflexivity. Qed.

(** C6: [getModelType] returns a model type exactly when the final
    dot-separated segment of the file name is, up to case, the extension
    of that type, and throws an [Unsupported file type] error for every
    other file name. *)
Theorem getModelType_by_extension (filename seg : string) :
  finalSegment filename seg ->
  (forall t, getModelType filename = Return t <->
             equalsIgnoreCase seg (extensionOf t)) /\
  ((forall t, ~ equalsIgnoreCase seg (extensionOf t)) ->
   getModelType filename =
     Throw ("Unsupported file type: " ++ toLowerCase seg)).
Proof.
  intros H. unfold getModelType, equalsIgnoreCase.
  rewrite (pop_split_finalSegment _ _ H). simpl option_map. split.
  - intros t. rewrite toLowerCase_extensionOf. apply switchExtension_Return.
  - intros N. apply switchExtension_Throw. intros t.
    specialize (N t). now rewrite toLowerCase_extensionOf in N.
Qed.

(** A name in capitals with two dots. *)
Lemma getModelType_by_extension_witness :
  finalSegment "robot.v2.GLB" "GLB" /\
  getModelType "robot.v2.GLB" = Return glb.
Proof.
  assert (H : finalSegment "robot.v2.GLB" "GLB").
  { split; [simpl; repeat split; discriminate|].
    right. now exists "robot.v2". }
  split; [exact H|].
  apply (proj1 (getModelType_by_extension "robot.v2.GLB" "GLB" H)).
  reflexivity.
Defined.

Example getModelType_txt :
  getModelType "notes.txt" = Throw "Unsupported file type: txt".
Proof. reflexivity. Qed.

Example getModelType_no_dot :
  getModelType "OBJ" = Return obj.
Proof. reflexivity. Qed.

(** ** A root that was moved before the fit *)

Lemma position_after_fit (o : Object3D) (c : Camera) :
  position (fst (OBJModel_fit o c)) = negate (worldCenter o).
Proof. rewrite OBJModel_fit_object. apply position_setPosition. Qed.

Lemma isEmpty_after_fit (o : Object3D) (c : Camera) :
  isEmpty (setFromObject (fst (OBJModel_fit o c))) = isEmpty (setFromObject o).
Proof.
  rewrite OBJModel_fit_object, setFromObject_setPosition.
  apply isEmpty_translateBox.
Qed.

(** C3 at the inputs where the code misses it.  A cube whose root
    stands at [(1, 0, 0)] has its centre at [(-1, 0, 0)] after the fit;
    and when the effect of [GLTFModel] runs a second time on the model
    it has centred, the cube is back where the file put it, its centre
    at [(1/2, 1/2, 1/2)]. *)
Theorem fit_moved_root_off_center :
  worldCenter
    (fst (GLTFModel_fit (cubeAt (mkVector3 1 0 0)) (Perspective canvasCamera)))
    = mkVector3 (-1) 0 0 /\
  (let r := GLTFModel_fit (cubeAt vzero) (Perspective canvasCamera) in
   worldCenter (fst r) = vzero /\
   worldCenter (fst (GLTFModel_fit (fst r) (snd r)))
     = mkVector3 (1 / 2) (1 / 2) (1 / 2)).
Proof.
  split; [|cbv zeta; split].
  - rewrite GLTFModel_fit_eq, worldCenter_after_fit by apply isEmpty_cubeAt.
    apply Vector3_eq; simpl; lra.
  - rewrite GLTFModel_fit_eq. now apply fit_centers_unmoved_root.
  - rewrite (GLTFModel_fit_eq (fst _)), (GLTFModel_fit_eq (cubeAt vzero)).
    rewrite worldCenter_after_fit
      by (rewrite isEmpty_after_fit; apply isEmpty_cubeAt).
    rewrite position_after_fit, worldCenter_cubeAt.
    apply Vector3_eq; simpl; lra.
Qed.

(** ** The environment preset *)

Lemma truthy_Some (u : option string) (url : string) :
  truthy u = Some url -> u = Some url.
Proof. destruct u as [[|]|]; simpl; congruence. Qed.



(** ** Loading an OBJ without materials *)

Lemma traverse_unfold (o : Object3D) :
  traverse o = o :: flat_map traverse (children o).
Proof. destruct o; reflexivity. Qed.








(** ** The skeleton overlay *)

Lemma fbxModel_render (s : ViewerState) :
  fbxModel (ModelViewer_render s) =
    match truthy (st_url s), st_type s with
    | Some url, Some fbx => Some (url, st_showBones s)
    | _, _ => None
    end.
Proof.
  unfold ModelViewer_render.
  destruct (truthy (st_url s)) as [url|]; [|reflexivity].
  destruct (st_type s) as [[| | |]|]; reflexivity.
Qed.

Lemma sameDeps_eq (a b : string * bool) : sameDeps a b = true -> a = b.
Proof.
  destruct a as [u x], b as [v y]. unfold sameDeps. simpl.
  rewrite andb_true_iff. intros [U B].
  apply String.eqb_eq in U. apply Bool.eqb_prop in B. congruence.
Qed.

Lemma scene_remove_helper (id : nat) (v : bool) :
  (3 <= id)%nat ->
  scene_remove (lights ++ [SkeletonHelperObj id v]) (SkeletonHelperObj id v)
    = lights.
Proof.
  intros H. do 3 (destruct id as [|id]; [lia|]).
  simpl. now rewrite Nat.eqb_refl.
Qed.

Lemma skeletonCleanup_clean (useFBX : string -> Object3D)
  (props : option (string * bool)) (t : Three) :
  sceneFor useFBX props t -> sceneFor useFBX None (skeletonCleanup t).
Proof.
  intros [Ha H]. unfold skeletonCleanup.
  assert (C : (skeletonRef t = None /\ scene t = lights) \/
              exists id, (3 <= id < allocated t)%nat /\
                skeletonRef t = Some (SkeletonHelperObj id true) /\
                scene t = (lights ++ [SkeletonHelperObj id true])%list).
  { destruct props as [[url [|]]|]; auto.
    destruct (hasBones (useFBX url)); auto. }
  destruct C as [[R S]|(id & Hid & R & S)]; rewrite R.
  - split; [exact Ha|]. now split.
  - split; [exact Ha|]. simpl. split; [reflexivity|].
    rewrite S. apply scene_remove_helper. lia.
Qed.

Lemma skeletonEffect_sets (useFBX : string -> Object3D) (url : string)
  (showBones : bool) (t : Three) :
  sceneFor useFBX None t ->
  sceneFor useFBX (Some (url, showBones))
    (skeletonEffect (useFBX url) showBones t).
Proof.
  intros [Ha [R S]]. unfold skeletonEffect. rewrite R.
  destruct showBones; [|now split].
  unfold sceneFor. destruct (hasBones (useFBX url)); simpl.
  - split; [lia|]. exists (allocated t). rewrite S.
    repeat split; try reflexivity; lia.
  - now split.
Qed.

Lemma commit_consistent (useFBX : string -> Object3D) (s : ViewerState)
  (a : App) :
  sceneFor useFBX (mountedFBX a) (three a) ->
  consistent useFBX (commit useFBX s a).
Proof.
  intros H. unfold commit.
  destruct (mountedFBX a) as [old|] eqn:M;
    destruct (fbxModel (ModelViewer_render s)) as [[url showBones]|] eqn:N.
  - destruct (sameDeps old (url, showBones)) eqn:D.
    + apply sameDeps_eq in D. subst old. split; [now simpl|exact H].
    + split; [now simpl|]. simpl.
      apply skeletonEffect_sets. eapply skeletonCleanup_clean. exact H.
  - split; [now simpl|]. simpl. eapply skeletonCleanup_clean. exact H.
  - split; [now simpl|]. simpl. apply skeletonEffect_sets.
    destruct H as [Ha [_ S]]. split; [exact Ha|]. now split.
  - split; [now simpl|exact H].
Qed.

Lemma viewer_commit (useFBX : string -> Object3D) (s : ViewerState) (a : App) :
  viewer (commit useFBX s a) = s.
Proof.
  unfold commit.
  destruct (mountedFBX a), (fbxModel _) as [[? ?]|];
    try destruct (sameDeps _ _); reflexivity.
Qed.

Lemma mountApp_consistent (useFBX : string -> Object3D) (s : ViewerState) :
  consistent useFBX (mountApp useFBX s).
Proof.
  apply commit_consistent. unfold sceneFor. simpl. split; [lia|]. now split.
Qed.

Lemma dispatch_consistent (useFBX : string -> Object3D) (a : App) (e : Event) :
  consistent useFBX a -> consistent useFBX (dispatch useFBX a e).
Proof.
  intros H. pose proof (proj2 H) as Hs.
  destruct e as [files|files|checked|value]; simpl.
  - now apply commit_consistent.
  - now apply commit_consistent.
  - destruct (bonesCheckboxes _); [exact H|now apply commit_consistent].
  - destruct (presetSelects _); [exact H|now apply commit_consistent].
Qed.

Lemma run_consistent (useFBX : string -> Object3D) (events : list Event) :
  forall a, consistent useFBX a -> consistent useFBX (run useFBX a events).
Proof.
  induction events as [|e events IH]; intros a H; simpl; [exact H|].
  apply IH. now apply dispatch_consistent.
Qed.

Lemma consistent_helperPresent (useFBX : string -> Object3D) (a : App) :
  consistent useFBX a ->
  (helperPresent a = true <-> bonesShown useFBX (viewer a)).
Proof.
  intros [M [_ H]]. rewrite fbxModel_render in M.
  unfold helperPresent, bonesShown.
  destruct (truthy (st_url (viewer a))) as [url|] eqn:U.
  - destruct (st_type (viewer a)) as [[| | |]|] eqn:T; rewrite M in H;
      try (destruct H as [_ ->]; simpl; split;
           [discriminate|intros (u & _ & E & _); discriminate E]).
    destruct (st_showBones (viewer a)) eqn:B.
    + destruct (hasBones (useFBX url)) eqn:HB.
      * destruct H as (id & _ & _ & ->). simpl. split; [|reflexivity].
        intros _. exists url. now repeat split.
      * destruct H as [_ ->]. simpl. split; [discriminate|].
        intros (u & Eu & _ & _ & E). congruence.
    + destruct H as [_ ->]. simpl. split; [discriminate|].
      intros (u & _ & _ & E & _). discriminate E.
  - rewrite M in H. destruct H as [_ ->]. simpl. split; [discriminate|].
    intros (u & E & _). discriminate E.
Qed.

(** The scene along a session: the helper is the fourth object
    allocated, after the three lights. *)
Example riggedSession_scene :
  scene (three (run (fun _ => riggedModel)
                  (mountApp (fun _ => riggedModel) emptyViewer)
                  riggedSession))
    = [LightObj 0; LightObj 1; LightObj 2; SkeletonHelperObj 3 true].
Proof. reflexivity. Qed.

Example riggedSession_unticked :
  scene (three (run (fun _ => riggedModel)
                  (mountApp (fun _ => riggedModel) emptyViewer)
                  (riggedSession ++ [BonesChange false])))
    = [LightObj 0; LightObj 1; LightObj 2].
Proof. reflexivity. Qed.

(** C8: from any initial state of the component and after any sequence
    of events, a [SkeletonHelper] is in the scene if and only if the
    loaded model is an FBX, [showBones] is on and the model has a mesh
    with a skeleton; switching [showBones] off, or loading a model of
    another type (which unmounts [FBXModel]), leaves no helper in the
    scene. *)
Theorem skeleton_helper_invariant (useFBX : string -> Object3D)
  (s0 : ViewerState) (events : list Event) :
  let a := run useFBX (mountApp useFBX s0) events in
  (helperPresent a = true <-> bonesShown useFBX (viewer a)) /\
  helperPresent (dispatch useFBX a (BonesChange false)) = false /\
  (forall e,
     st_type (viewer (dispatch useFBX a e)) <> Some fbx ->
     helperPresent (dispatch useFBX a e) = false).
Proof.
  intros a.
  assert (C : consistent useFBX a)
    by apply run_consistent, mountApp_consistent.
  split; [now apply consistent_helperPresent|]. split.
  - apply not_true_is_false. intros P.
    apply (consistent_helperPresent useFBX) in P;
      [|now apply dispatch_consistent].
    destruct P as (url & U & T & B & HB).
    simpl in U, T, B.
    destruct (bonesCheckboxes (ModelViewer_render (viewer a))) eqn:W.
    + revert W. unfold ModelViewer_render. rewrite U, T. simpl.
      discriminate.
    + rewrite viewer_commit in B. discriminate B.
  - intros e N. apply not_true_is_false. intros P.
    apply (consistent_helperPresent useFBX) in P;
      [|now apply dispatch_consistent].
    destruct P as (url & _ & T & _). contradiction.
Qed.

(** The session with a rigged model: the helper is there after the
    checkbox is ticked, and gone when a [.glb] file is dropped. *)
Lemma skeleton_helper_invariant_witness :
  let useFBX := fun _ : string => riggedModel in
  let a := run useFBX (mountApp useFBX emptyViewer) riggedSession in
  let e := Drop [mkFile "room.glb" "blob:2"] in
  ModelViewer_init None = Some emptyViewer /\
  helperPresent a = true /\
  st_type (viewer (dispatch useFBX a e)) <> Some fbx /\
  helperPresent (dispatch useFBX a e) = false.
Proof.
  intros useFBX a e.
  assert (N : st_type (viewer (dispatch useFBX a e)) <> Some fbx)
    by (simpl; discriminate).
  split; [reflexivity|]. split; [reflexivity|]. split; [exact N|].
  exact (proj2 (proj2 (skeleton_helper_invariant useFBX emptyViewer
                         riggedSession)) e N).
Defined.

(** * Further properties of the code *)

(** ** The fit, run again and combined with other steps *)






(** Assigning the default material and fitting can be done in either
    order: the materials play no part in the fit. *)
Lemma expandByObject_traverseSetMeshMaterial (m : Material) (o : Object3D) :
  forall w b,
    expandByObject w b (traverseSetMeshMaterial m o) = expandByObject w b o.
Proof.
  induction o as [k p g mat s cs IH] using Object3D_nested_ind.
  intros w b. simpl.
  generalize (match g with
              | Some ps =>
                  union b (translateBox (addVectors w p) (setFromPoints ps))
              | None => b
              end) as b1.
  induction IH as [|c cs Hc _ IHcs]; intros b1; simpl; [reflexivity|].
  now rewrite Hc, IHcs.
Qed.

Theorem fit_after_default_material (m : Material) (o : Object3D) (c : Camera) :
  OBJModel_fit (traverseSetMeshMaterial m o) c =
    (traverseSetMeshMaterial m (fst (OBJModel_fit o c)),
     snd (OBJModel_fit o c)).
Proof.
  assert (B : setFromObject (traverseSetMeshMaterial m o) = setFromObject o)
    by apply expandByObject_traverseSetMeshMaterial.
  rewrite (surjective_pairing (OBJModel_fit (traverseSetMeshMaterial m o) c)).
  f_equal.
  - rewrite !OBJModel_fit_object. unfold worldCenter. rewrite B.
    destruct o; reflexivity.
  - destruct c as [c|c].
    + rewrite !OBJModel_fit_perspective. cbv zeta. cbn [snd].
      unfold maxDimOf. now rewrite B.
    + destruct o; reflexivity.
Qed.

(** ** Where the fitted box lies *)

Lemma Rabs_div_ge (a s : R) :
  0 <= a -> s <> 0 -> Rabs s <= 1 -> a <= Rabs (a / s).
Proof.
  intros Ha Hs H1. unfold Rdiv.
  rewrite Rabs_mult, (Rabs_right a) by lra.
  rewrite Rabs_inv.
  assert (P : 0 < Rabs s) by now apply Rabs_pos_lt.
  assert (I : 1 <= / Rabs s).
  { rewrite <- Rinv_1 at 1. apply Rinv_le_contravar; assumption. }
  replace a with (a * 1) at 1 by lra.
  apply Rmult_le_compat_l; assumption.
Qed.

Lemma Rabs_sin_le_1 (x : R) : Rabs (sin x) <= 1.
Proof.
  pose proof (SIN_bound x) as [L U]. apply Rabs_le. lra.
Qed.

(** With a non-zero sine the distance is at least 1.5 times [maxDim]. *)
Lemma distance_ge (o : Object3D) (c : PerspectiveCamera) :
  sin (fovRadians c / 2) <> 0 ->
  maxDimOf o * 1.5 <= Rabs (maxDimOf o / sin (fovRadians c / 2)) * 1.5.
Proof.
  intros Hs.
  pose proof (Rabs_div_ge (maxDimOf o) _ (maxDimOf_nonneg o) Hs
                (Rabs_sin_le_1 _)).
  lra.
Qed.

(** The depth of the box is at most [maxDim]. *)
Lemma depth_le_maxDimOf (o : Object3D) (lo hi : Vector3) :
  setFromObject o = MkBox lo hi -> isEmpty (MkBox lo hi) = false ->
  vz hi - vz lo <= maxDimOf o.
Proof.
  intros B E. unfold maxDimOf, getSize. rewrite B, E. unfold Math_max3.
  simpl. apply Rmax_r.
Qed.

(** For a model with geometry whose root stands at the origin, fitted
    on a perspective camera whose half angle has a non-zero sine: the
    camera's [z] is at least [maxDim] beyond the front face of the box,
    and the back face of the box is no farther from the camera, along
    [z], than the far plane. *)
Theorem fit_box_between_camera_and_far (o : Object3D) (c : PerspectiveCamera) :
  position o = vzero ->
  isEmpty (setFromObject o) = false ->
  sin (fovRadians c / 2) <> 0 ->
  exists c' lo hi,
    fittedCamera (OBJModel_fit o (Perspective c)) = Some c' /\
    setFromObject (fst (OBJModel_fit o (Perspective c))) = MkBox lo hi /\
    maxDimOf o <= vz (cam_position c') - vz hi /\
    vz (cam_position c') - vz lo <= far c'.
Proof.
  intros Hp E Hs.
  destruct (setFromObject o) as [|lo hi] eqn:B; [discriminate|].
  pose proof (depth_le_maxDimOf o lo hi B E) as D.
  pose proof (distance_ge o c Hs) as G.
  pose proof (maxDimOf_nonneg o) as N.
  rewrite OBJModel_fit_object, setFromObject_setPosition, B.
  rewrite translateBox_MkBox by assumption.
  rewrite OBJModel_fit_perspective. cbv zeta.
  eexists. eexists. eexists.
  split; [reflexivity|]. split; [reflexivity|].
  unfold worldCenter, getCenter. rewrite B, E, Hp.
  simpl. apply isEmpty_false in E. split; lra.
Qed.

Lemma fit_box_between_camera_and_far_witness :
  exists c' lo hi,
    fittedCamera (OBJModel_fit (cubeAt vzero) (Perspective canvasCamera))
      = Some c' /\
    setFromObject (fst (OBJModel_fit (cubeAt vzero) (Perspective canvasCamera)))
      = MkBox lo hi /\
    maxDimOf (cubeAt vzero) <= vz (cam_position c') - vz hi /\
    vz (cam_position c') - vz lo <= far c'.
Proof.
  apply fit_box_between_camera_and_far.
  - reflexivity.
  - apply isEmpty_cubeAt.
  - apply Rgt_not_eq, sin_half_fov_pos. simpl. lra.
Defined.

(** A model without extent (no vertices, or all vertices in one point),
    fitted on a camera whose half angle has a non-zero sine (at a zero
    sine JavaScript would divide 0 by 0): the fit puts the camera at
    [z = 0] and sets the far plane to 0, nearer than the near plane of
    0.1. *)
Theorem fit_without_extent (o : Object3D) (c : PerspectiveCamera) :
  maxDimOf o = 0 ->
  sin (fovRadians c / 2) <> 0 ->
  exists c',
    fittedCamera (OBJModel_fit o (Perspective c)) = Some c' /\
    vz (cam_position c') = 0 /\ far c' = 0 /\ far c' < near c'.
Proof.
  intros M _. fit_fields. simpl. rewrite M.
  replace (0 / sin (fovRadians c / 2)) with 0 by (unfold Rdiv; lra).
  rewrite Rabs_R0. repeat split; lra.
Qed.

Lemma maxDimOf_empty (o : Object3D) :
  isEmpty (setFromObject o) = true -> maxDimOf o = 0.
Proof.
  intros E. unfold maxDimOf, getSize. rewrite E. unfold Math_max3. simpl.
  rewrite (Rmax_left 0 0) by lra. apply Rmax_left. lra.
Qed.

Lemma fit_without_extent_witness :
  maxDimOf emptyGroup = 0 /\
  exists c',
    fittedCamera (OBJModel_fit emptyGroup (Perspective canvasCamera))
      = Some c' /\
    vz (cam_position c') = 0 /\ far c' = 0 /\ far c' < near c'.
Proof.
  assert (M : maxDimOf emptyGroup = 0) by (apply maxDimOf_empty; reflexivity).
  split; [exact M|].
  apply (fit_without_extent emptyGroup canvasCamera M).
  apply Rgt_not_eq, sin_half_fov_pos. simpl. lra.
Defined.

(** ** Resizing the canvas *)

(** A resize and a fit can come in either order: the camera ends up the
    same. *)
Theorem handleResize_fit_commute (innerWidth innerHeight : R)
  (o : Object3D) (c : Camera) :
  handleResize innerWidth innerHeight (snd (OBJModel_fit o c))
    = snd (OBJModel_fit o (handleResize innerWidth innerHeight c)).
Proof.
  destruct c as [c|c].
  - simpl handleResize. rewrite !OBJModel_fit_perspective. cbv zeta.
    reflexivity.
  - destruct o; reflexivity.
Qed.

(** ** File names up to case *)

Lemma lowerChar_idempotent (c : ascii) : lowerChar (lowerChar c) = lowerChar c.
Proof. destruct c as [[] [] [] [] [] [] [] []]; reflexivity. Qed.

Lemma lowerChar_dot (c : ascii) :
  Ascii.eqb (lowerChar c) "." = Ascii.eqb c ".".
Proof. destruct c as [[] [] [] [] [] [] [] []]; reflexivity. Qed.

Lemma toLowerCase_idempotent (s : string) :
  toLowerCase (toLowerCase s) = toLowerCase s.
Proof.
  induction s as [|c s IH]; simpl; [reflexivity|].
  now rewrite lowerChar_idempotent, IH.
Qed.


Lemma toLowerCase_length (s : string) :
  String.length (toLowerCase s) = String.length s.
Proof. induction s as [|c s IH]; simpl; [reflexivity|now rewrite IH]. Qed.

Lemma length_append (a b : string) :
  String.length (a ++ b) = (String.length a + String.length b)%nat.
Proof. induction a as [|c a IH]; simpl; [reflexivity|now rewrite IH]. Qed.

Lemma split_toLowerCase (s : string) :
  split "." (toLowerCase s) = map toLowerCase (split "." s).
Proof.
  induction s as [|c s IH]; simpl; [reflexivity|].
  rewrite lowerChar_dot, IH.
  destruct (Ascii.eqb c "."); [reflexivity|].
  destruct (split "." s); reflexivity.
Qed.

Lemma pop_map (f : string -> string) (l : list string) :
  pop (map f l) = option_map f (pop l).
Proof.
  induction l as [|a l IH]; simpl; [reflexivity|].
  rewrite IH. destruct l; reflexivity.
Qed.

Lemma getModelType_toLowerCase (filename : string) :
  getModelType (toLowerCase filename) = getModelType filename.
Proof.
  unfold getModelType. rewrite split_toLowerCase, pop_map.
  destruct (pop (split "." filename)); simpl; [|reflexivity].
  now rewrite toLowerCase_idempotent.
Qed.



Lemma endsWith_unfold (s suffix : string) :
  endsWith s suffix =
    if s =? suffix then true
    else match s with
         | EmptyString => false
         | String _ s' => endsWith s' suffix
         end.
Proof. destruct s; reflexivity. Qed.

Lemma endsWith_true (s suffix : string) :
  endsWith s suffix = true -> exists before, s = before ++ suffix.
Proof.
  induction s as [|c s IH]; rewrite endsWith_unfold.
  - destruct (String.eqb_spec "" suffix) as [<-|_]; [|discriminate].
    intros _. now exists "".
  - destruct (String.eqb_spec (String c s) suffix) as [<-|_].
    + intros _. now exists "".
    + intros H. destruct (IH H) as [before ->].
      now exists (String c before).
Qed.

Lemma getModelType_dot_obj (before : string) :
  getModelType (before ++ ".obj") = Return obj.
Proof.
  unfold getModelType.
  rewrite (pop_split_finalSegment (before ++ ".obj") "obj"); [reflexivity|].
  split; [simpl; repeat split; discriminate|].
  right. now exists before.
Qed.

(** Every file that the test of [handleDrop] takes for an OBJ
    ([name.toLowerCase().endsWith('.obj')]) is one that [getModelType]
    classifies as [obj]. *)
Theorem drop_obj_test_agrees (name : string) :
  endsWith (toLowerCase name) ".obj" = true ->
  getModelType name = Return obj.
Proof.
  intros H. destruct (endsWith_true _ _ H) as [before E].
  rewrite <- getModelType_toLowerCase, E.
  apply getModelType_dot_obj.
Qed.

Lemma drop_obj_test_agrees_witness :
  endsWith (toLowerCase "old.chair.OBJ") ".obj" = true /\
  getModelType "old.chair.OBJ" = Return obj.
Proof.
  split; [reflexivity|].
  apply drop_obj_test_agrees. reflexivity.
Defined.

(** ** The material file beside an OBJ *)

Lemma replace_obj_mtl_unfold (s : string) :
  replace_obj_mtl s =
    if toLowerCase s =? ".obj" then ".mtl"
    else match s with
         | EmptyString => EmptyString
         | String c s' => String c (replace_obj_mtl s')
         end.
Proof. destruct s; reflexivity. Qed.

(** The extension [.obj], in any case, is replaced by [.mtl]. *)
Lemma replace_obj_mtl_suffix (stem ext : string) :
  toLowerCase ext = ".obj" ->
  replace_obj_mtl (stem ++ ext) = stem ++ ".mtl".
Proof.
  intros E. induction stem as [|c stem IH].
  - simpl append. rewrite replace_obj_mtl_unfold, E. reflexivity.
  - rewrite replace_obj_mtl_unfold.
    destruct (String.eqb_spec (toLowerCase (String c stem ++ ext)) ".obj")
      as [L|_].
    + apply (f_equal String.length) in L.
      rewrite toLowerCase_length in L. simpl in L.
      rewrite length_append in L.
      apply (f_equal String.length) in E.
      rewrite toLowerCase_length in E. simpl in E. lia.
    + simpl. now rewrite IH.
Qed.

(** A name that does not end in [.obj] is left as it is. *)
Lemma replace_obj_mtl_other (s : string) :
  endsWith (toLowerCase s) ".obj" = false -> replace_obj_mtl s = s.
Proof.
  induction s as [|c s IH]; rewrite replace_obj_mtl_unfold, endsWith_unfold.
  - destruct (toLowerCase "" =? ".obj"); [discriminate|reflexivity].
  - destruct (toLowerCase (String c s) =? ".obj"); [discriminate|].
    simpl. intros H. now rewrite IH.
Qed.



(** ** What the file handlers load *)



Lemma paired_handleFileChange (files : list File) (s : ViewerState) :
  paired s -> paired (handleFileChange files s).
Proof.
  intros P. unfold handleFileChange.
  destruct files as [|file rest]; [exact P|].
  destruct (getModelType (file_name file)) as [t|msg]; [|exact P].
  right. exists (file_objectUrl file), t. destruct t; now split.
Qed.

Lemma paired_handleDrop (files : list File) (s : ViewerState) :
  paired s -> paired (handleDrop files s).
Proof.
  intros P. unfold handleDrop.
  destruct (find _ files) as [objFile|].
  - right. exists (file_objectUrl objFile), obj. now split.
  - destruct files as [|file rest]; [exact P|].
    destruct (getModelType (file_name file)) as [t|msg]; [|exact P].
    right. exists (file_objectUrl file), t. now split.
Qed.

Lemma viewer_dispatch (useFBX : string -> Object3D) (a : App) (e : Event) :
  viewer (dispatch useFBX a e) =
    match e with
    | FileChange files => handleFileChange files (viewer a)
    | Drop files => handleDrop files (viewer a)
    | BonesChange checked =>
        match bonesCheckboxes (ModelViewer_render (viewer a)) with
        | [] => viewer a
        | _ => setShowBones checked (viewer a)
        end
    | PresetChange value =>
        match presetSelects (ModelViewer_render (viewer a)) with
        | [] => viewer a
        | _ => setEnvironmentPreset value (viewer a)
        end
    end.
Proof.
  destruct e; simpl; try apply viewer_commit.
  - destruct (bonesCheckboxes _); [reflexivity|apply viewer_commit].
  - destruct (presetSelects _); [reflexivity|apply viewer_commit].
Qed.

(** From the first render on, and after any sequence of events, [url]
    and [type] are both [null] or both set. *)
Theorem url_and_type_paired (useFBX : string -> Object3D)
  (modelUrl : option string) (s0 : ViewerState) (events : list Event) :
  ModelViewer_init modelUrl = Some s0 ->
  paired (viewer (run useFBX (mountApp useFBX s0) events)).
Proof.
  intros I.
  assert (P0 : paired (viewer (mountApp useFBX s0))).
  { unfold mountApp. rewrite viewer_commit. unfold ModelViewer_init in I.
    destruct (truthy modelUrl) as [u|].
    - destruct (getModelType u) as [t|]; [|discriminate].
      injection I as <-. right. now exists u, t.
    - injection I as <-. now left. }
  revert P0. generalize (mountApp useFBX s0) as a.
  induction events as [|e events IH]; intros a P; simpl; [exact P|].
  apply IH. rewrite viewer_dispatch.
  destruct e as [files|files|checked|value].
  - now apply paired_handleFileChange.
  - now apply paired_handleDrop.
  - destruct (bonesCheckboxes _); exact P.
  - destruct (presetSelects _); exact P.
Qed.

Lemma url_and_type_paired_witness :
  ModelViewer_init (Some "/models/hero.fbx")
    = Some (mkViewerState (Some "/models/hero.fbx") (Some fbx) None false
              "city") /\
  paired (viewer (run (fun _ => riggedModel)
                    (mountApp (fun _ => riggedModel)
                       (mkViewerState (Some "/models/hero.fbx") (Some fbx)
                          None false "city"))
                    riggedSession)).
Proof.
  split; [reflexivity|].
  apply (url_and_type_paired _ (Some "/models/hero.fbx")). reflexivity.
Defined.

Lemma truthy_nonempty (u : string) : u <> "" -> truthy (Some u) = Some u.
Proof. destruct u; [congruence|reflexivity]. Qed.

Lemma shown_handleFileChange (files : list File) (s : ViewerState) :
  Forall (fun f => file_objectUrl f <> "") files ->
  shown s -> shown (handleFileChange files s).
Proof.
  intros N P. unfold handleFileChange.
  destruct files as [|file rest]; [exact P|].
  destruct (getModelType (file_name file)) as [t|msg]; [|exact P].
  inversion N as [|? ? Hf _]; subst.
  exists (file_objectUrl file), t.
  destruct t; simpl; (split; [now apply truthy_nonempty|reflexivity]).
Qed.

Lemma shown_handleDrop (files : list File) (s : ViewerState) :
  Forall (fun f => file_objectUrl f <> "") files ->
  shown s -> shown (handleDrop files s).
Proof.
  intros N P. unfold handleDrop.
  destruct (find _ files) as [objFile|] eqn:F.
  - apply find_some in F as [I _].
    rewrite Forall_forall in N. specialize (N _ I).
    exists (file_objectUrl objFile), obj. simpl.
    split; [now apply truthy_nonempty|reflexivity].
  - destruct files as [|file rest]; [exact P|].
    destruct (getModelType (file_name file)) as [t|msg]; [|exact P].
    inversion N as [|? ? Hf _]; subst.
    exists (file_objectUrl file), t. simpl.
    split; [now apply truthy_nonempty|reflexivity].
Qed.

Lemma render_prompt (s : ViewerState) :
  ModelViewer_render s = [PromptEl] <-> ~ shown s.
Proof.
  unfold ModelViewer_render, shown.
  destruct (truthy (st_url s)) as [url|].
  - destruct (st_type s) as [t|].
    + split; [discriminate|]. intros H. exfalso. apply H. now exists url, t.
    + split; [|reflexivity]. intros _ (u & t & _ & E). discriminate E.
  - split; [|reflexivity]. intros _ (u & t & E & _). discriminate E.
Qed.

(** Once a model is on show, no sequence of events brings the prompt
    back, given that the object URLs of the files are non-empty. *)
Theorem canvas_stays (useFBX : string -> Object3D) (a : App)
  (events : list Event) :
  Forall urlsNonEmpty events ->
  shown (viewer a) ->
  shown (viewer (run useFBX a events)) /\
  ModelViewer_render (viewer (run useFBX a events)) <> [PromptEl].
Proof.
  intros N P.
  assert (Q : shown (viewer (run useFBX a events))).
  { revert a P. induction N as [|e events He _ IH]; intros a P; simpl;
      [exact P|].
    apply IH. rewrite viewer_dispatch.
    destruct e as [files|files|checked|value].
    - now apply shown_handleFileChange.
    - now apply shown_handleDrop.
    - destruct (bonesCheckboxes _); exact P.
    - destruct (presetSelects _); exact P. }
  split; [exact Q|]. intros R. now apply render_prompt in R.
Qed.

Lemma canvas_stays_witness :
  let useFBX := fun _ : string => riggedModel in
  let a := run useFBX (mountApp useFBX emptyViewer) riggedSession in
  let events := [FileChange [mkFile "notes.txt" "blob:3"]; Drop [];
                 PresetChange "night"; Drop [mkFile "room.glb" "blob:4"]] in
  Forall urlsNonEmpty events /\
  shown (viewer a) /\
  ModelViewer_render (viewer (run useFBX a events)) <> [PromptEl].
Proof.
  intros useFBX a events.
  assert (N : Forall urlsNonEmpty events)
    by (repeat constructor; discriminate).
  assert (P : shown (viewer a))
    by (exists "blob:1", fbx; split; reflexivity).
  split; [exact N|]. split; [exact P|].
  exact (proj2 (canvas_stays useFBX a events N P)).
Defined.

(** ** Which control is rendered *)

(** The bones checkbox is rendered exactly when an FBX is loaded, and
    never together with the preset selector; the render depends on
    [showBones] only for an FBX and on the material URL only for an
    OBJ. *)
Theorem render_controls (s : ViewerState) :
  let v := ModelViewer_render s in
  (bonesCheckboxes v <> [] <-> fbxLoaded s) /\
  (fbxLoaded s -> bonesCheckboxes v = [st_showBones s]) /\
  (bonesCheckboxes v = [] \/ presetSelects v = []) /\
  (st_type s <> Some fbx ->
   forall b, ModelViewer_render (setShowBones b s) = v) /\
  (st_type s <> Some obj ->
   forall m, ModelViewer_render (setMtlUrl m s) = v).
Proof.
  destruct s as [u t m b p]. unfold fbxLoaded, ModelViewer_render. simpl.
  destruct (truthy u) as [url|] eqn:U.
  - destruct t as [[| | |]|]; simpl;
      (repeat split; intros; try tauto; try discriminate; eauto;
       try congruence;
       try (match goal with
            | H : _ /\ _ = Some fbx |- _ => destruct H as [_ ?]; discriminate
            end)).
  - repeat split; intros; try tauto; try discriminate; eauto;
      try (match goal with
           | H : (exists _, None = Some _) /\ _ |- _ =>
               destruct H as [[? ?] _]; discriminate
           end).
Qed.

Lemma render_controls_witness :
  let s := mkViewerState (Some "blob:1") (Some glb) (Some "blob:old") true
             "dawn" in
  st_type s <> Some fbx /\ st_type s <> Some obj /\
  (forall b, ModelViewer_render (setShowBones b s) = ModelViewer_render s) /\
  (forall m, ModelViewer_render (setMtlUrl m s) = ModelViewer_render s).
Proof.
  intros s.
  assert (F : st_type s <> Some fbx) by discriminate.
  assert (O : st_type s <> Some obj) by discriminate.
  split; [exact F|]. split; [exact O|]. split.
  - exact (proj1 (proj2 (proj2 (proj2 (render_controls s)))) F).
  - exact (proj2 (proj2 (proj2 (proj2 (render_controls s)))) O).
Defined.

(** ** The scene under the skeleton effect *)

Lemma sceneFor_shape (useFBX : string -> Object3D)
  (props : option (string * bool)) (t : Three) :
  sceneFor useFBX props t ->
  (skeletonRef t = None /\ scene t = lights) \/
  exists id, (3 <= id < allocated t)%nat /\
    skeletonRef t = Some (SkeletonHelperObj id true) /\
    scene t = (lights ++ [SkeletonHelperObj id true])%list.
Proof.
  intros [_ H]. destruct props as [[url [|]]|]; auto.
  destruct (hasBones (useFBX url)); auto.
Qed.

(** After any sequence of events the scene holds the three lights it
    started with and at most one skeleton helper, and that helper is the
    one [skeletonRef] points to: no helper is ever left behind. *)
Theorem no_helper_left_behind (useFBX : string -> Object3D)
  (s0 : ViewerState) (events : list Event) :
  let t := three (run useFBX (mountApp useFBX s0) events) in
  othersOf (scene t) = lights /\
  helpersOf (scene t) =
    match skeletonRef t with
    | Some h => [h]
    | None => []
    end /\
  (List.length (helpersOf (scene t)) <= 1)%nat.
Proof.
  intros t.
  assert (C : consistent useFBX (run useFBX (mountApp useFBX s0) events))
    by apply run_consistent, mountApp_consistent.
  destruct (sceneFor_shape _ _ _ (proj2 C)) as [[R S]|(id & _ & R & S)];
    fold t in R, S; rewrite R, S; simpl; repeat split; lia.
Qed.

Lemma sameDeps_refl (a : string * bool) : sameDeps a a = true.
Proof.
  destruct a as [u b]. unfold sameDeps. simpl.
  rewrite String.eqb_refl. now destruct b.
Qed.

(** Choosing another environment preset never touches the scene: no
    helper is added, removed or replaced. *)
Theorem preset_change_keeps_scene (useFBX : string -> Object3D)
  (s0 : ViewerState) (events : list Event) (value : string) :
  let a := run useFBX (mountApp useFBX s0) events in
  three (dispatch useFBX a (PresetChange value)) = three a.
Proof.
  intros a.
  assert (C : consistent useFBX a)
    by apply run_consistent, mountApp_consistent.
  destruct C as [M _]. simpl.
  destruct (presetSelects _); [reflexivity|].
  unfold commit.
  assert (E : fbxModel (ModelViewer_render
                          (setEnvironmentPreset value (viewer a)))
              = mountedFBX a)
    by (rewrite M, !fbxModel_render; reflexivity).
  rewrite E. destruct (mountedFBX a) as [[url b]|]; [|reflexivity].
  now rewrite sameDeps_refl.
Qed.

Lemma scene_remove_add_fresh (scene : list SceneChild) (c : SceneChild) :
  Forall (fun x => child_id x <> child_id c) scene ->
  scene_remove (scene_add scene c) c = scene.
Proof.
  unfold scene_add. induction 1 as [|x scene Hx _ IH]; simpl.
  - now rewrite Nat.eqb_refl.
  - apply Nat.eqb_neq in Hx. now rewrite Hx, IH.
Qed.

(** The effect followed by its cleanup gives the scene back as it was,
    for any scene in which no object has the identity of the helper to
    be allocated. *)
Theorem skeleton_effect_then_cleanup (fbx : Object3D) (showBones : bool)
  (t : Three) :
  skeletonRef t = None ->
  Forall (fun x => child_id x <> allocated t) (scene t) ->
  scene (skeletonCleanup (skeletonEffect fbx showBones t)) = scene t /\
  skeletonRef (skeletonCleanup (skeletonEffect fbx showBones t)) = None.
Proof.
  intros R F. unfold skeletonEffect. rewrite R.
  destruct showBones; [|unfold skeletonCleanup; now rewrite R].
  destruct (hasBones fbx); [|unfold skeletonCleanup; now rewrite R].
  unfold skeletonCleanup. simpl. split; [|reflexivity].
  now apply scene_remove_add_fresh.
Qed.

Lemma skeleton_effect_then_cleanup_witness :
  let t := mkThree [LightObj 0; LightObj 7; SkeletonHelperObj 2 false]
             None 9 in
  scene (skeletonCleanup (skeletonEffect riggedModel true t)) = scene t /\
  skeletonRef (skeletonCleanup (skeletonEffect riggedModel true t)) = None.
Proof.
  intros t. apply skeleton_effect_then_cleanup; [reflexivity|].
  repeat constructor; discriminate.
Defined.

(** ** Outcomes of the OBJ load *)

Lemma loadObj_outcome (net : Network) (url : string)
  (materials : option MaterialCreator) (camera : Camera) :
  match objLoad net url materials with
  | Some object =>
      exists model camera',
        loadObj net url materials camera = Loaded materials model camera'
  | None => loadObj net url materials camera = ObjError materials
  end.
Proof.
  unfold loadObj. destruct (objLoad net url materials) as [object|];
    [|reflexivity].
  destruct (OBJModel_fit _ camera) as [model camera']. now exists model, camera'.
Qed.

(** The materials with which [OBJModel_load] ends are those with which
    it called [loadObj]. *)
Lemma OBJModel_load_loadObj (net : Network) (url : string)
  (mtlUrl : option string) (camera : Camera) :
  exists materials,
    OBJModel_load net url mtlUrl camera = loadObj net url materials camera.
Proof.
  unfold OBJModel_load, loadWithMaterial.
  destruct (truthy mtlUrl) as [m|].
  - destruct (mtlLoad net m) as [ms|]; eauto.
  - destruct (startsWith url "http" || startsWith url "/"); eauto.
    destruct (fetchHead net (replace_obj_mtl url)); eauto.
    destruct (mtlLoad net (replace_obj_mtl url)) as [ms|]; eauto.
Qed.

(** The load of an OBJ ends in an error only when the request for the
    OBJ itself fails, and it does load whenever that request succeeds,
    whatever happens to the material file. *)
Theorem obj_error_only_from_obj_request (net : Network) (url : string)
  (mtlUrl : option string) (camera : Camera) :
  (forall materials,
     OBJModel_load net url mtlUrl camera = ObjError materials ->
     objLoad net url materials = None) /\
  ((forall materials, objLoad net url materials <> None) ->
   exists materials model camera',
     OBJModel_load net url mtlUrl camera = Loaded materials model camera').
Proof.
  destruct (OBJModel_load_loadObj net url mtlUrl camera) as [ms E].
  rewrite E. pose proof (loadObj_outcome net url ms camera) as O. split.
  - intros materials H.
    destruct (objLoad net url ms) as [object|] eqn:L.
    + destruct O as (model & camera' & O). congruence.
    + rewrite O in H. now injection H as <-.
  - intros A. destruct (objLoad net url ms) as [object|] eqn:L.
    + destruct O as (model & camera' & O). now exists ms, model, camera'.
    + now apply A in L.
Qed.

Lemma obj_error_only_from_obj_request_witness :
  (forall materials,
     objLoad noMtlNetwork "/models/chair.obj" materials <> None) /\
  exists materials model camera',
    OBJModel_load noMtlNetwork "/models/chair.obj" (Some "/models/wood.mtl")
      (Perspective canvasCamera) = Loaded materials model camera'.
Proof.
  assert (A : forall materials,
             objLoad noMtlNetwork "/models/chair.obj" materials <> None)
    by discriminate.
  split; [exact A|].
  exact (proj2 (obj_error_only_from_obj_request noMtlNetwork
                  "/models/chair.obj" (Some "/models/wood.mtl")
                  (Perspective canvasCamera)) A).
Defined.

Lemma materials_setPosition (o : Object3D) (q : Vector3) :
  map material (traverse (setPosition o q)) = map material (traverse o).
Proof. destruct o; reflexivity. Qed.

(** When the given material file loads, its materials are set on the
    loader and the meshes keep the materials the OBJ loader gave them:
    the default material is not applied. *)
Theorem obj_with_mtl_keeps_materials (net : Network) (url m : string)
  (mtlUrl : option string) (camera : Camera) (ms : MaterialCreator)
  (object : Object3D) :
  truthy mtlUrl = Some m ->
  mtlLoad net m = Some ms ->
  objLoad net url (Some ms) = Some object ->
  exists model camera',
    OBJModel_load net url mtlUrl camera = Loaded (Some ms) model camera' /\
    map material (traverse model) = map material (traverse object).
Proof.
  intros T M L. unfold OBJModel_load, loadWithMaterial, loadObj.
  rewrite T, M, L.
  destruct (OBJModel_fit object camera) as [model camera'] eqn:F.
  exists model, camera'. split; [reflexivity|].
  assert (E : model = fst (OBJModel_fit object camera)) by now rewrite F.
  rewrite E, OBJModel_fit_object. apply materials_setPosition.
Qed.

Lemma obj_with_mtl_keeps_materials_witness :
  let net := mkNetwork (fun _ => HeadFailed) (fun _ => Some ["paint"])
               (fun _ _ => Some paintedCube) in
  exists model camera',
    OBJModel_load net "blob:7" (Some "blob:8") (Perspective canvasCamera)
      = Loaded (Some ["paint"]) model camera' /\
    map material (traverse model) = [LoaderMaterial "paint"].
Proof.
  intros net.
  apply (obj_with_mtl_keeps_materials net "blob:7" "blob:8" (Some "blob:8")
           (Perspective canvasCamera) ["paint"] paintedCube);
    reflexivity.
Defined.

(** Without a given material URL, on a server URL ([http...] or
    [/...]): a URL that ends in [.obj] is probed at the same path with
    [.mtl]; any other URL, one with a query string for instance, is
    probed as it is, and on success the model URL itself is loaded as
    the material file. *)
Theorem auto_mtl_url_probed (net : Network) (url : string) (camera : Camera) :
  startsWith url "http" || startsWith url "/" = true ->
  (forall stem ext,
     url = stem ++ ext -> toLowerCase ext = ".obj" ->
     OBJModel_load net url None camera =
       match fetchHead net (stem ++ ".mtl") with
       | HeadOk => loadWithMaterial net url (stem ++ ".mtl") camera
       | _ => loadObj net url None camera
       end) /\
  (endsWith (toLowerCase url) ".obj" = false ->
   OBJModel_load net url None camera =
     match fetchHead net url with
     | HeadOk => loadWithMaterial net url url camera
     | _ => loadObj net url None camera
     end).
Proof.
  intros S. unfold OBJModel_load. simpl truthy. cbv iota. rewrite S. split.
  - intros stem ext -> E. rewrite (replace_obj_mtl_suffix stem ext E).
    now destruct (fetchHead net (stem ++ ".mtl")).
  - intros N. rewrite (replace_obj_mtl_other url N).
    now destruct (fetchHead net url).
Qed.

Lemma auto_mtl_url_probed_witness :
  let net := mkNetwork (fun u => if u =? "/m/chair.obj?v=2" then HeadOk
                                 else HeadNotOk)
               (fun _ => Some ["paint"]) (fun _ _ => Some paintedCube) in
  startsWith "/m/chair.obj?v=2" "http" || startsWith "/m/chair.obj?v=2" "/"
    = true /\
  endsWith (toLowerCase "/m/chair.obj?v=2") ".obj" = false /\
  OBJModel_load net "/m/chair.obj?v=2" None (Perspective canvasCamera)
    = loadWithMaterial net "/m/chair.obj?v=2" "/m/chair.obj?v=2"
        (Perspective canvasCamera).
Proof.
  intros net. split; [reflexivity|]. split; [reflexivity|].
  exact (proj2 (auto_mtl_url_probed net "/m/chair.obj?v=2"
                  (Perspective canvasCamera) eq_refl) eq_refl).
Defined.




(** ** The file handlers of the full-screen variant *)

(** The handler never shows the alert for an unsupported format: for
    such a file [getModelType] throws, and the handler is left after the
    name and the size of the file have been stored while [url] and [type]
    stay as they were; for a supported file all four are set from that
    file. *)
Theorem Fullscreen_handleFile_never_alerts (files : list SizedFile)
  (s : FullscreenState) :
  let r := Fullscreen_handleFile files s in
  snd r <> Alerted /\
  (forall message,
     snd r = Thrown message ->
     exists file rest,
       files = file :: rest /\
       getModelType (sf_name file) = Throw message /\
       fs_fileName (fst r) = sf_name file /\
       fs_fileSize (fst r) = sf_size file /\
       fs_url (fst r) = fs_url s /\ fs_type (fst r) = fs_type s) /\
  (forall file rest t,
     files = file :: rest -> getModelType (sf_name file) = Return t ->
     snd r = Returned /\
     fs_fileName (fst r) = sf_name file /\
     fs_url (fst r) = Some (sf_objectUrl file) /\ fs_type (fst r) = Some t).
Proof.
  unfold Fullscreen_handleFile. destruct files as [|file rest];
    cbv beta iota zeta.
  - split; [discriminate|]. split.
    + intros message H. discriminate H.
    + intros f r t H. discriminate H.
  - destruct (getModelType (sf_name file)) as [t|msg] eqn:G.
    + assert (T : truthy (Some (extensionOf t)) = Some (extensionOf t))
        by now destruct t.
      rewrite T. simpl. split; [discriminate|]. split.
      * intros message H. discriminate H.
      * intros f r t0 [= <- <-] H. rewrite G in H. injection H as <-.
        now repeat split.
    + simpl. split; [discriminate|]. split.
      * intros message [= <-]. exists file, rest. now repeat split.
      * intros f r t0 [= <- <-] H. rewrite G in H. discriminate H.
Qed.

Lemma Fullscreen_handleFile_never_alerts_witness :
  let s := mkFullscreenState (Some "blob:1") (Some glb) false "city"
             "room.glb" 2048%N 12%N in
  let r := Fullscreen_handleFile [mkSizedFile "notes.txt" 10%N "blob:2"] s in
  snd r = Thrown "Unsupported file type: txt" /\
  exists file rest,
    [mkSizedFile "notes.txt" 10%N "blob:2"] = file :: rest /\
    getModelType (sf_name file) = Throw "Unsupported file type: txt" /\
    fs_fileName (fst r) = sf_name file /\
    fs_fileSize (fst r) = sf_size file /\
    fs_url (fst r) = fs_url s /\ fs_type (fst r) = fs_type s.
Proof.
  intros s r. split; [reflexivity|].
  exact (proj1 (proj2 (Fullscreen_handleFile_never_alerts
                         [mkSizedFile "notes.txt" 10%N "blob:2"] s))
           _ eq_refl).
Defined.

(** ** Dropping and selecting the same files *)



